(** * Metasploit module enumeration: a shallow embedding

    Verification of [server/scripts/enumerate-metasploit-modules.py].

    Python text is modelled as [string]; a character is one of the code
    points U+0000 .. U+00FF, with Python's own classification of those code
    points (white space, word characters, lower-casing).  Lists are [list],
    a [dict] is an association list in insertion order (the order is what
    [json.dump] writes), and Python exceptions are an explicit error type. *)

From Stdlib Require Import List String Ascii Bool Arith NArith Lia DecimalString.
From Stdlib Require Import Permutation.
Import ListNotations.
Open Scope string_scope.

(** ** Python's [str] operations *)

Module Str.

Definition code (c : ascii) : N := N_of_ascii c.

Definition between (lo hi n : N) : bool := (N.leb lo n && N.leb n hi)%bool.

(** [c.isspace()]: TAB..CR, FS..US, space, NEL and NBSP. *)
Definition isspace (c : ascii) : bool :=
  let n := code c in
  between 9 13 n || between 28 32 n || N.eqb n 133 || N.eqb n 160.

(** [c.isalnum()] on the first 256 code points. *)
Definition isalnum (c : ascii) : bool :=
  let n := code c in
  between 48 57 n || between 65 90 n || between 97 122 n
  || N.eqb n 170 || N.eqb n 178 || N.eqb n 179 || N.eqb n 181
  || N.eqb n 185 || N.eqb n 186 || between 188 190 n
  || between 192 214 n || between 216 246 n || between 248 255 n.

(** The class [\w] of [re] on [str] patterns. *)
Definition isword (c : ascii) : bool := isalnum c || Ascii.eqb c "_".

Definition lower_char (c : ascii) : ascii :=
  let n := code c in
  if between 65 90 n || (between 192 222 n && negb (N.eqb n 215))
  then ascii_of_N (n + 32) else c.

(** [s.lower()] *)
Fixpoint lower (s : string) : string :=
  match s with
  | EmptyString => EmptyString
  | String c s' => String (lower_char c) (lower s')
  end.

Definition is_empty (s : string) : bool :=
  match s with EmptyString => true | String _ _ => false end.

(** [s.lstrip()] *)
Fixpoint lstrip (s : string) : string :=
  match s with
  | EmptyString => EmptyString
  | String c s' => if isspace c then lstrip s' else s
  end.

(** [s.rstrip()] *)
Fixpoint rstrip (s : string) : string :=
  match s with
  | EmptyString => EmptyString
  | String c s' =>
      let r := rstrip s' in
      if isspace c && is_empty r then EmptyString else String c r
  end.

(** [s.strip()] *)
Definition strip (s : string) : string := rstrip (lstrip s).

(** [s.startswith(p)] *)
Fixpoint startswith (p s : string) : bool :=
  match p, s with
  | EmptyString, _ => true
  | String _ _, EmptyString => false
  | String a p', String b s' => Ascii.eqb a b && startswith p' s'
  end.

(** [sub in s] *)
Fixpoint contains (sub s : string) : bool :=
  startswith sub s
  || match s with
     | EmptyString => false
     | String _ s' => contains sub s'
     end.

(** [s[n:]] *)
Fixpoint drop (n : nat) (s : string) : string :=
  match n, s with
  | O, _ => s
  | S _, EmptyString => EmptyString
  | S k, String _ s' => drop k s'
  end.

(** [s.split(sep)] for a one-character separator: never an empty list. *)
Fixpoint split (sep : ascii) (s : string) : list string :=
  match s with
  | EmptyString => [EmptyString]
  | String c s' =>
      if Ascii.eqb c sep then EmptyString :: split sep s'
      else match split sep s' with
           | h :: t => String c h :: t
           | [] => [String c EmptyString]
           end
  end.

(** [s.split()]: the maximal runs of characters that are not white space.
    [cur] is the run being read. *)
Fixpoint split_ws_from (cur : string) (s : string) : list string :=
  match s with
  | EmptyString => if is_empty cur then [] else [cur]
  | String c s' =>
      if isspace c
      then (if is_empty cur then split_ws_from EmptyString s'
            else cur :: split_ws_from EmptyString s')
      else split_ws_from (cur ++ String c EmptyString) s'
  end.

Definition split_ws (s : string) : list string := split_ws_from EmptyString s.

(** [s.replace(old, new)] for a non-empty [old]: the occurrences are taken
    left to right and do not overlap; [skip] counts the characters of the
    occurrence just replaced that are still to be passed over. *)
Fixpoint replace_from (old new : string) (skip : nat) (s : string) : string :=
  match s with
  | EmptyString => EmptyString
  | String c s' =>
      match skip with
      | S k => replace_from old new k s'
      | O =>
          if startswith old s
          then new ++ replace_from old new (String.length old - 1) s'
          else String c (replace_from old new 0 s')
      end
  end.

Definition replace (old new s : string) : string := replace_from old new 0 s.

(** The longest prefix of [s] whose characters satisfy [p], and the rest. *)
Fixpoint span (p : ascii -> bool) (s : string) : string * string :=
  match s with
  | EmptyString => (EmptyString, EmptyString)
  | String c s' =>
      if p c then let '(a, b) := span p s' in (String c a, b)
      else (EmptyString, s)
  end.

Definition nl : string := String "010" EmptyString.

End Str.


(** ** Python exceptions and effects *)

Inductive exn_class : Type :=
  | TimeoutExpired
  | FileNotFoundError
  | PermissionError
  | OSError
  | ValueError
  | UnicodeDecodeError
  | IndexError
  | AttributeError
  | KeyboardInterrupt
  | SystemExit.

(** [issubclass(c, Exception)]: the last two classes derive from
    [BaseException] only, so [except Exception] lets them through. *)
Definition is_Exception (c : exn_class) : bool :=
  match c with
  | KeyboardInterrupt | SystemExit => false
  | _ => true
  end.

Definition is_TimeoutExpired (c : exn_class) : bool :=
  match c with TimeoutExpired => true | _ => false end.

Record exn : Type := Exn { exn_cls : exn_class; exn_msg : string }.

Inductive result (A : Type) : Type :=
  | Ok (a : A)
  | Raise (e : exn).
Arguments Ok {A} a.
Arguments Raise {A} e.

(** A computation returns or raises, and leaves the lines it printed. *)
Record io (A : Type) : Type := IO { value : result A; printed : list string }.
Arguments IO {A} value printed.
Arguments value {A} i.
Arguments printed {A} i.

Definition ret {A : Type} (a : A) : io A := IO (Ok a) [].

Definition raise {A : Type} (e : exn) : io A := IO (Raise e) [].

Definition bind {A B : Type} (m : io A) (k : A -> io B) : io B :=
  match value m with
  | Ok a => let r := k a in IO (value r) (printed m ++ printed r)
  | Raise e => IO (Raise e) (printed m)
  end.

Notation "x <- m ;; k" := (bind m (fun x => k))
  (at level 61, m at next level, right associativity).
Notation "m ;;; k" := (bind m (fun _ => k))
  (at level 61, right associativity).

Definition print (s : string) : io unit := IO (Ok tt) [s].

(** [l[i]], which raises [IndexError] out of range. *)
Definition index {A : Type} (l : list A) (i : nat) : io A :=
  match nth_error l i with
  | Some a => ret a
  | None => raise (Exn IndexError "list index out of range")
  end.

(** [m.group(1)] on the value of [re.search]: [None] has no [group]. *)
Definition group1 (m : option string) : io string :=
  match m with
  | Some g => ret g
  | None => raise (Exn AttributeError "'NoneType' object has no attribute 'group'")
  end.

(** [for x in xs: acc = body(acc, x)] *)
Fixpoint for_each {A S : Type} (xs : list A) (body : S -> A -> io S) (acc : S)
    : io S :=
  match xs with
  | [] => ret acc
  | x :: xs' => acc' <- body acc x ;; for_each xs' body acc'
  end.

(** [str(n)] *)
Definition str_of_nat (n : nat) : string :=
  DecimalString.NilZero.string_of_uint (Nat.to_uint n).

(** ** The vocabularies *)

Definition TOP_TECHNOLOGIES : list string :=
  [ "windows"; "linux"; "unix"; "macos"; "osx";
    "apache"; "iis"; "php"; "java"; "python";
    "ssh"; "smb"; "rdp"; "http"; "https" ].

Definition TOP_SERVICES : list string :=
  [ "http"; "https"; "smb"; "ssh"; "ftp"; "telnet"; "smtp"; "pop3"; "imap";
    "dns"; "snmp"; "ldap"; "mysql"; "mssql"; "postgres"; "oracle"; "mongodb";
    "redis"; "memcached"; "vnc"; "rdp"; "nfs"; "rsync"; "rpc"; "tftp";
    "sip"; "rtsp"; "socks"; "proxy"; "ssl"; "tls"; "ipsec"; "vpn";
    "docker"; "kubernetes"; "jenkins"; "gitlab"; "jboss"; "tomcat"; "weblogic";
    "elasticsearch"; "kibana"; "splunk"; "grafana"; "prometheus"; "netbios";
    "kerberos"; "winrm"; "wmi"; "powershell" ].

(** ** [run_msfconsole_command] *)

(** What [subprocess.run] does with an argument vector and a timeout: it
    completes with the captured standard output, or it raises. *)
Inductive proc_outcome : Type :=
  | Completed (stdout : string)
  | Raised (e : exn).

(** The surroundings of one run of the script.  The script sends each
    command once, so the outcome is a function of the argument vector. *)
Record world : Type := World {
  subprocess_run : list string -> nat -> proc_outcome;
  utcnow_isoformat : string
}.

Definition msfconsole_argv (command : string) : list string :=
  ["msfconsole"; "-q"; "-x"; command ++ "; exit"].

Definition run_msfconsole_command (w : world) (command : string) : io string :=
  let cmd := msfconsole_argv command in
  match subprocess_run w cmd 300 with
  | Completed stdout => ret stdout
  | Raised e =>
      if is_TimeoutExpired (exn_cls e)
      then print ("Command timed out: " ++ command) ;;; ret ""
      else if is_Exception (exn_cls e)
      then print ("Error running command: " ++ exn_msg e) ;;; ret ""
      else raise e
  end.

(** ** [parse_module_list] *)

(** One turn of the loop over the lines.  [if parts and '/' in parts[0]]
    is the match on [parts]. *)
Definition parse_module_line (module_type : string) (modules : list string)
    (line0 : string) : list string :=
  let line := Str.strip line0 in
  if Str.is_empty line || Str.startswith "=" line || Str.startswith "[" line
  then modules
  else if Str.contains "Matching Modules" line || Str.contains "Name" line
          || Str.contains "----" line
  then modules
  else
    match Str.split_ws line with
    | p0 :: _ =>
        if Str.contains "/" p0 then
          let module_path :=
            if Str.startswith (module_type ++ "/") p0
            then Str.drop (String.length module_type + 1) p0
            else p0 in
          modules ++ [module_path]
        else modules
    | [] => modules
    end.

Definition parse_module_list (output module_type : string) : list string :=
  fold_left (parse_module_line module_type) (Str.split "010" output) [].

(** ** [get_module_info] *)

Record module_info : Type := ModuleInfo {
  path : string;
  name : string;
  description : string;
  rank : string;
  platform : list string;
  targets : list string;
  options : list string;
  payloads : list string
}.

(** [current_section] is [None] or ['description']. *)
Inductive section_tag : Type := NoSection | DescriptionSection.

Definition in_description (s : section_tag) : bool :=
  match s with DescriptionSection => true | NoSection => false end.

Record parse_state : Type := ParseState {
  info : module_info;
  current_section : section_tag
}.

Definition set_name (i : module_info) (v : string) : module_info :=
  ModuleInfo (path i) v (description i) (rank i) (platform i)
             (targets i) (options i) (payloads i).

Definition set_description (i : module_info) (v : string) : module_info :=
  ModuleInfo (path i) (name i) v (rank i) (platform i)
             (targets i) (options i) (payloads i).

Definition set_rank (i : module_info) (v : string) : module_info :=
  ModuleInfo (path i) (name i) (description i) v (platform i)
             (targets i) (options i) (payloads i).

Definition extend_platform (i : module_info) (v : list string) : module_info :=
  ModuleInfo (path i) (name i) (description i) (rank i) (platform i ++ v)
             (targets i) (options i) (payloads i).

(** [re.match(r'Rank:\s+(\w+)', s)]: group 1 when the pattern matches at
    the start of [s].  Both repetitions are greedy, and no character is
    both white space and a word character, so there is no backtracking. *)
Definition match_rank (s : string) : option string :=
  if Str.startswith "Rank:" s then
    let '(ws, rest) := Str.span Str.isspace (Str.drop 5 s) in
    if Str.is_empty ws then None
    else
      let '(word, _) := Str.span Str.isword rest in
      if Str.is_empty word then None else Some word
  else None.

(** [re.search(r'Rank:\s+(\w+)', s)]: the leftmost match. *)
Fixpoint search_rank (s : string) : option string :=
  match match_rank s with
  | Some g => Some g
  | None =>
      match s with
      | EmptyString => None
      | String _ s' => search_rank s'
      end
  end.

Definition is_some {A : Type} (o : option A) : bool :=
  match o with Some _ => true | None => false end.

(** [[p.strip() for p in platforms if p.strip()]] *)
Definition stripped_nonempty (platforms : list string) : list string :=
  map Str.strip (filter (fun p => negb (Str.is_empty (Str.strip p))) platforms).

(** One turn of the loop over the lines of the detail text. *)
Definition info_line (st : parse_state) (line0 : string) : io parse_state :=
  let line := Str.strip line0 in
  if Str.startswith "Name:" line then
    ret (ParseState
           (set_name (info st) (Str.strip (Str.replace "Name:" "" line)))
           (current_section st))
  else if Str.contains "Description:" line then
    ret (ParseState (info st) DescriptionSection)
  else if in_description (current_section st) && negb (Str.is_empty line)
          && negb (Str.startswith "Module" line) then
    ret (ParseState (set_description (info st) line) NoSection)
  else if Str.contains "Rank:" line then
    let rank_match := search_rank line in
    if is_some rank_match then
      g <- group1 rank_match ;;
      ret (ParseState (set_rank (info st) (Str.lower g)) (current_section st))
    else ret st
  else if Str.contains "Platform:" line
          || Str.contains "Available targets:" line then
    let parts := Str.split ":" line in
    if (1 <? List.length parts)%nat then
      p1 <- index parts 1 ;;
      let platforms := Str.split "," (Str.strip p1) in
      ret (ParseState (extend_platform (info st) (stripped_nonempty platforms))
                      (current_section st))
    else ret st
  else ret st.

Definition initial_info (module_path : string) : module_info :=
  ModuleInfo module_path "" "" "" [] [] [] [].

(** The field extraction of [get_module_info], from the detail text on. *)
Definition parse_module_info (module_path output : string) : io module_info :=
  let lines := Str.split "010" output in
  st <- for_each lines info_line
          (ParseState (initial_info module_path) NoSection) ;;
  ret (info st).

Definition get_module_info (w : world) (module_type module_path : string)
    : io module_info :=
  let full_path := module_type ++ "/" ++ module_path in
  output <- run_msfconsole_command w ("info " ++ full_path) ;;
  parse_module_info module_path output.

(** ** The filters *)

(** [any(k in s for k in keywords)] *)
Definition any_in (keywords : list string) (s : string) : bool :=
  existsb (fun k => Str.contains k s) keywords.

Definition filter_exploits_payloads (modules : list string) : list string :=
  fold_left
    (fun (filtered : list string) (module : string) =>
       let module_lower := Str.lower module in
       if any_in TOP_TECHNOLOGIES module_lower
       then (filtered ++ [module])%list else filtered)
    modules [].

Definition filter_auxiliary (modules : list string) : list string :=
  let filtered :=
    fold_left
      (fun (filtered : list string) (module : string) =>
         let module_lower := Str.lower module in
         if any_in TOP_SERVICES module_lower
         then (filtered ++ [module])%list else filtered)
      modules [] in
  if (50 <? List.length filtered)%nat then firstn 50 filtered else filtered.

(** ** Dictionaries *)

Definition dict (V : Type) : Type := list (string * V).

(** [d.get(k)] *)
Fixpoint dict_get {V : Type} (d : dict V) (k : string) : option V :=
  match d with
  | [] => None
  | (k', v) :: d' => if String.eqb k' k then Some v else dict_get d' k
  end.

(** [d[k] = v]: an old key keeps its place, a new one goes last. *)
Fixpoint dict_set {V : Type} (d : dict V) (k : string) (v : V) : dict V :=
  match d with
  | [] => [(k, v)]
  | (k', v') :: d' =>
      if String.eqb k' k then (k', v) :: d' else (k', v') :: dict_set d' k v
  end.

(** [d[k]] on a [defaultdict(list)]. *)
Definition defaultdict_get {V : Type} (d : dict (list V)) (k : string) : list V :=
  match dict_get d k with
  | Some l => l
  | None => []
  end.

(** [d[k].append(v)] on a [defaultdict(list)]. *)
Definition defaultdict_append {V : Type} (d : dict (list V)) (k : string) (v : V)
    : dict (list V) :=
  dict_set d k (defaultdict_get d k ++ [v])%list.

Definition keys {V : Type} (d : dict V) : list string := map fst d.

Definition values {V : Type} (d : dict V) : list V := map snd d.

(** ** [organize_modules_by_category] *)

(** One turn of the loop; [len(parts) > 1] and [parts[0]] are the match on
    [parts]. *)
Definition organize_module (organized : dict (list string)) (module : string)
    : dict (list string) :=
  match Str.split "/" module with
  | category :: _ :: _ => defaultdict_append organized category module
  | _ => defaultdict_append organized "other" module
  end.

Definition organize_modules_by_category (modules : list string)
    : dict (list string) :=
  fold_left organize_module modules [].

(** ** [enumerate_all_modules] *)

Record metadata : Type := Metadata {
  generated_at : option string;
  total_modules : nat;
  by_type : dict nat
}.

Record report : Type := Report {
  report_metadata : metadata;
  report_modules : dict (dict (list string))
}.

Definition module_types : list string :=
  ["encoder"; "evasion"; "nop"; "post"; "exploit"; "payload"; "auxiliary"].

(** [x in xs] on a list of strings. *)
Definition str_in (x : string) (xs : list string) : bool :=
  existsb (String.eqb x) xs.

(** The block under [# Apply filtering]: the sequence that goes on. *)
Definition apply_filtering (module_type : string) (modules : list string)
    : io (list string) :=
  if str_in module_type ["exploit"; "payload"] then
    let modules := filter_exploits_payloads modules in
    print ("Filtered to " ++ str_of_nat (List.length modules) ++ " "
           ++ module_type ++ " modules (top technologies)") ;;;
    ret modules
  else if String.eqb module_type "auxiliary" then
    let modules := filter_auxiliary modules in
    print ("Filtered to " ++ str_of_nat (List.length modules) ++ " "
           ++ module_type ++ " modules (top services)") ;;;
    ret modules
  else ret modules.

(** The three stores at the end of a turn of the loop, for the sequence
    that came out of the filtering. *)
Definition record_type (result : report) (module_type : string)
    (modules : list string) : report :=
  let organized := organize_modules_by_category modules in
  let md := report_metadata result in
  Report
    (Metadata (generated_at md)
              (total_modules md + List.length modules)
              (dict_set (by_type md) module_type (List.length modules)))
    (dict_set (report_modules result) module_type organized).

(** One turn of the loop over the module types. *)
Definition enumerate_type (w : world) (result : report) (module_type : string)
    : io report :=
  print (Str.nl ++ "Enumerating " ++ module_type ++ " modules...") ;;;
  output <- run_msfconsole_command w ("search type:" ++ module_type) ;;
  let modules := parse_module_list output module_type in
  print ("Found " ++ str_of_nat (List.length modules) ++ " " ++ module_type
         ++ " modules") ;;;
  modules <- apply_filtering module_type modules ;;
  ret (record_type result module_type modules).

Definition initial_report : report :=
  Report (Metadata None 0 []) [].

Definition stamp (result : report) (now : string) : report :=
  let md := report_metadata result in
  Report (Metadata (Some now) (total_modules md) (by_type md))
         (report_modules result).

Definition enumerate_all_modules (w : world) : io report :=
  print "Starting Metasploit module enumeration..." ;;;
  result <- for_each module_types (enumerate_type w) initial_report ;;
  ret (stamp result (utcnow_isoformat w ++ "Z")).

(** ** Notions the statements use *)

(** [l] is [m] with some elements left out, the others in their order. *)
Inductive Subseq {A : Type} : list A -> list A -> Prop :=
  | Subseq_nil : Subseq [] []
  | Subseq_skip : forall x l m, Subseq l m -> Subseq l (x :: m)
  | Subseq_keep : forall x l m, Subseq l m -> Subseq (x :: l) (x :: m).

(** Where an identifier of the list parser's output comes from: the first
    token of a line, a token with a ['/'], kept as it is or without its
    leading [module_type/]. *)
Definition from_token (module_type : string) (lines : list string) (m : string)
    : Prop :=
  exists line token,
    In line lines
    /\ hd_error (Str.split_ws (Str.strip line)) = Some token
    /\ Str.contains "/" token = true
    /\ ((Str.startswith (module_type ++ "/") token = false /\ m = token)
        \/ token = module_type ++ "/" ++ m).

(** The identifier's lowercased form contains a keyword of the vocabulary. *)
Definition matches (vocabulary : list string) (module : string) : bool :=
  any_in vocabulary (Str.lower module).

(** The category an identifier is filed under: its first segment when it
    has more than one, the catch-all otherwise. *)
Definition category_of (module : string) : string :=
  match Str.split "/" module with
  | category :: _ :: _ => category
  | _ => "other"
  end.

(** The number of identifiers over all the lists of a categorization. *)
Definition total_listed (d : dict (list string)) : nat :=
  list_sum (map (@List.length string) (values d)).

(** The listing text a module type's query yields once the command runner
    has put the empty text in place of a failure. *)
Definition listing_of (w : world) (module_type : string) : string :=
  match subprocess_run w (msfconsole_argv ("search type:" ++ module_type)) 300 with
  | Completed stdout => stdout
  | Raised _ => ""
  end.

(** The policy of a module type, without the progress lines. *)
Definition policy (module_type : string) (modules : list string) : list string :=
  if str_in module_type ["exploit"; "payload"] then filter_exploits_payloads modules
  else if String.eqb module_type "auxiliary" then filter_auxiliary modules
  else modules.

(** The filtered identifier sequence of a module type. *)
Definition filtered_modules (w : world) (module_type : string) : list string :=
  policy module_type (parse_module_list (listing_of w module_type) module_type).

(** A turn of the driver's loop on the report alone. *)
Definition record_filtered (w : world) (result : report) (module_type : string)
    : report :=
  record_type result module_type (filtered_modules w module_type).

(** The per-type counts the report is expected to hold. *)
Definition counted (w : world) (types : list string) : dict nat :=
  map (fun t => (t, List.length (filtered_modules w t))) types.

(** The categorized inventory the report is expected to hold. *)
Definition categorized (w : world) (types : list string)
    : dict (dict (list string)) :=
  map (fun t => (t, organize_modules_by_category (filtered_modules w t))) types.

(** The lines of a detail text, trimmed as the detail parser reads them. *)
Definition detail_lines (output : string) : list string :=
  map Str.strip (Str.split "010" output).

(** [c] occurs in [s]. *)
Fixpoint has_char (c : ascii) (s : string) : bool :=
  match s with
  | EmptyString => false
  | String x s' => Ascii.eqb x c || has_char c s'
  end.

(** The text before the first [sep] of [s], all of [s] when there is none. *)
Fixpoint before_first (sep : ascii) (s : string) : string :=
  match s with
  | EmptyString => EmptyString
  | String c s' =>
      if Ascii.eqb c sep then EmptyString else String c (before_first sep s')
  end.

(** The text after the first [sep] of [s], empty when there is none. *)
Fixpoint after_first (sep : ascii) (s : string) : string :=
  match s with
  | EmptyString => EmptyString
  | String c s' => if Ascii.eqb c sep then s' else after_first sep s'
  end.

(** The platform entries of a line as the specification words them:
    everything after the first [':'], split on commas, each piece trimmed. *)
Definition platform_pieces_as_specified (line : string) : list string :=
  map Str.strip (Str.split "," (after_first ":" line)).

(** The platform entries of a line as the parser takes them: the text
    between the first [':'] and the next one (or the end of the line),
    trimmed, split on commas, each piece trimmed, the empty pieces left out. *)
Definition platform_pieces (line : string) : list string :=
  filter (fun p => negb (Str.is_empty p))
    (map Str.strip
       (Str.split ","
          (Str.strip (before_first ":" (after_first ":" line))))).

(** A trimmed line is handled as a platform line: it has one of the two
    markers and no earlier case of the parser takes it. *)
Definition reaches_platform (st : parse_state) (line : string) : bool :=
  negb (Str.startswith "Name:" line)
  && negb (Str.contains "Description:" line)
  && negb (in_description (current_section st) && negb (Str.is_empty line)
           && negb (Str.startswith "Module" line))
  && negb (Str.contains "Rank:" line)
  && (Str.contains "Platform:" line || Str.contains "Available targets:" line).

(** No query of the run is cut short by an interrupt or an exit request. *)
Definition uninterrupted (w : world) : Prop :=
  forall module_type e,
    In module_type module_types ->
    subprocess_run w (msfconsole_argv ("search type:" ++ module_type)) 300
      = Raised e ->
    is_Exception (exn_cls e) = true.

(** A console that answers every query with the same listing. *)
Definition sample_listing : string :=
  "Matching Modules" ++ Str.nl ++ "================" ++ Str.nl ++ Str.nl
  ++ "   exploit/windows/smb/ms17_010  2017-03-14  excellent  EternalBlue"
  ++ Str.nl
  ++ "   auxiliary/unrelated/foo        normal     Misc" ++ Str.nl.

Definition sample_world : world :=
  World (fun _ _ => Completed sample_listing) "2024-01-01T00:00:00".

(** A console that is not installed. *)
Definition missing_tool_world : world :=
  World (fun _ _ => Raised (Exn FileNotFoundError "No such file or directory: 'msfconsole'"))
        "2024-01-01T00:00:00".

(** ** [main] *)

(** What [open(path, 'w')] and [json.dump(data, f, indent=2)] do with the
    report: the document is written, or an exception is raised. *)
Record filesystem : Type := Filesystem {
  write_json : string -> report -> option exn
}.

(** ["=" * n] *)
Fixpoint str_repeat (s : string) (n : nat) : string :=
  match n with
  | O => EmptyString
  | S k => s ++ str_repeat s k
  end.

(** The marks U+2713 and U+2717 of the two closing lines lie outside the
    first 256 code points; the printed lines hold their UTF-8 bytes. *)
Definition check_mark : string :=
  String "226" (String "156" (String "147" EmptyString)).

Definition ballot_x : string :=
  String "226" (String "156" (String "151" EmptyString)).

Definition output_path : string := "/app/server/data/metasploit-modules.json".

(** The value is the exit code. *)
Definition main (w : world) (fs : filesystem) : io nat :=
  print "Metasploit Module Enumeration Script" ;;;
  print (str_repeat "=" 50) ;;;
  modules_data <- enumerate_all_modules w ;;
  print (Str.nl ++ "Writing results to " ++ output_path ++ "...") ;;;
  match write_json fs output_path modules_data with
  | None =>
      let md := report_metadata modules_data in
      print (check_mark ++ " Successfully wrote "
             ++ str_of_nat (total_modules md) ++ " modules") ;;;
      print (Str.nl ++ "Modules by type:") ;;;
      for_each (by_type md)
        (fun (_ : unit) (item : string * nat) =>
           print ("  - " ++ fst item ++ ": " ++ str_of_nat (snd item)))
        tt ;;;
      ret 0
  | Some e =>
      if is_Exception (exn_cls e)
      then print (ballot_x ++ " Error writing file: " ++ exn_msg e) ;;; ret 1
      else raise e
  end.

(** ** Further notions the statements use *)

(** Some character of [s] satisfies [p]. *)
Fixpoint any_char (p : ascii -> bool) (s : string) : bool :=
  match s with
  | EmptyString => false
  | String c s' => p c || any_char p s'
  end.


(** The elements of [l], each at its first occurrence. *)
Fixpoint distinct_in_order (l : list string) : list string :=
  match l with
  | [] => []
  | x :: l' =>
      x :: filter (fun y => negb (String.eqb y x)) (distinct_in_order l')
  end.


(** A description is empty or a trimmed line of the text that is no
    marker line. *)
Definition description_ok (lines : list string) (d : string) : Prop :=
  d = ""
  \/ (In d lines
      /\ Str.startswith "Module" d = false
      /\ Str.startswith "Name:" d = false
      /\ Str.contains "Description:" d = false).

(** A platform entry is a trimmed, non-empty text without [','] and
    [':']. *)
Definition entry_ok (e : string) : Prop :=
  e <> ""
  /\ Str.strip e = e
  /\ has_char "," e = false
  /\ has_char ":" e = false.

(** The outcome of the listing query of a module type. *)
Definition search_outcome (w : world) (module_type : string) : proc_outcome :=
  subprocess_run w (msfconsole_argv ("search type:" ++ module_type)) 300.

(** The outcome of the detail query of a module. *)
Definition info_outcome (w : world) (module_type module_path : string)
    : proc_outcome :=
  subprocess_run w
    (msfconsole_argv ("info " ++ module_type ++ "/" ++ module_path)) 300.

(** Every query of the run fails with an exception the command runner
    absorbs. *)
Definition all_queries_fail (w : world) : Prop :=
  forall module_type,
    In module_type module_types ->
    exists e, search_outcome w module_type = Raised e
              /\ is_Exception (exn_cls e) = true.

(** A file system that takes every document. *)
Definition writable : filesystem := Filesystem (fun _ _ => None).

(** A file system without the directory of the document. *)
Definition missing_directory : filesystem :=
  Filesystem (fun _ _ =>
    Some (Exn FileNotFoundError "No such file or directory")).

(** * Properties *)

(** ** Text *)

Section Text.

Lemma startswith_drop (p s : string) :
  Str.startswith p s = true -> s = p ++ Str.drop (String.length p) s.
Proof.
  revert s; induction p as [|a p IH]; intros s H.
  - reflexivity.
  - destruct s as [|b s]; simpl in H; [discriminate|].
    apply andb_true_iff in H as [Hab Hps].
    apply Ascii.eqb_eq in Hab; subst b.
    simpl; f_equal; now apply IH.
Qed.

Lemma length_append (a b : string) :
  String.length (a ++ b) = String.length a + String.length b.
Proof. induction a as [|c a IH]; simpl; [reflexivity | now rewrite IH]. Qed.

Lemma append_assoc (a b c : string) : (a ++ b) ++ c = a ++ (b ++ c).
Proof. induction a as [|x a IH]; simpl; [reflexivity | now rewrite IH]. Qed.

Lemma split_not_nil (sep : ascii) (s : string) : Str.split sep s <> [].
Proof.
  destruct s as [|c s]; simpl; [discriminate|].
  destruct (Ascii.eqb c sep); [discriminate|].
  destruct (Str.split sep s); discriminate.
Qed.

End Text.

(** ** The list parser *)

Section ListParser.

Variable module_type : string.

Lemma parse_module_line_from_token (lines : list string) (acc : list string)
    (line : string) :
  In line lines ->
  (forall m, In m acc -> from_token module_type lines m) ->
  forall m, In m (parse_module_line module_type acc line) ->
            from_token module_type lines m.
Proof.
  intros Hline Hacc m. unfold parse_module_line.
  destruct (_ || _ || _); [apply Hacc|].
  destruct (_ || _ || _); [apply Hacc|].
  destruct (Str.split_ws (Str.strip line)) as [|p0 ps] eqn:Hparts;
    [apply Hacc|].
  destruct (Str.contains "/" p0) eqn:Hslash; [|apply Hacc].
  intros Hin. apply in_app_or in Hin as [Hin|[Hin|[]]]; [now apply Hacc|].
  exists line, p0. rewrite Hparts.
  repeat split; trivial.
  destruct (Str.startswith (module_type ++ "/") p0) eqn:Hpre.
  - right. subst m. apply startswith_drop in Hpre.
    rewrite length_append in Hpre. simpl in Hpre.
    now rewrite append_assoc in Hpre.
  - left. now split.
Qed.

Lemma parse_module_lines_from_token (lines : list string) :
  forall todo acc,
    incl todo lines ->
    (forall m, In m acc -> from_token module_type lines m) ->
    forall m, In m (fold_left (parse_module_line module_type) todo acc) ->
              from_token module_type lines m.
Proof.
  induction todo as [|line todo IH]; intros acc Hincl Hacc m; simpl.
  - apply Hacc.
  - apply IH.
    + intros x Hx. apply Hincl. now right.
    + apply parse_module_line_from_token; [|exact Hacc].
      apply Hincl. now left.
Qed.

End ListParser.

(** C1, as the specification has it, fails: with the listing [exploit/foo]
    and the type [exploit] the parser returns [foo], which has no ['/']. *)
Lemma parse_module_list_slash_counterexample :
  ~ (forall output module_type m,
       In m (parse_module_list output module_type) ->
       Str.contains "/" m = true).
Proof.
  intros H.
  specialize (H "exploit/foo" "exploit" "foo").
  assert (Hin : In "foo" (parse_module_list "exploit/foo" "exploit"))
    by (vm_compute; now left).
  apply H in Hin. vm_compute in Hin. discriminate.
Qed.

(** C1, amended: every identifier [parse_module_list] returns comes from
    the first white-space-delimited token of a line of the listing, and
    that token contains a ['/']; the identifier is the token itself when the
    token does not start with [module_type/], and otherwise what follows
    that prefix (so [module_type/identifier] is the token). *)
Theorem parse_module_list_from_token (output module_type m : string) :
  In m (parse_module_list output module_type) ->
  from_token module_type (Str.split "010" output) m.
Proof.
  unfold parse_module_list.
  apply parse_module_lines_from_token.
  - apply incl_refl.
  - intros x [].
Qed.

Lemma parse_module_list_from_token_witness :
  from_token "exploit" (Str.split "010" sample_listing) "windows/smb/ms17_010".
Proof.
  apply (parse_module_list_from_token sample_listing "exploit"
           "windows/smb/ms17_010").
  vm_compute. left. reflexivity.
Defined.

(** C2, as the specification has it, fails: the parser does not return
    the one-element sequence. *)
Lemma parse_module_list_scenario_counterexample :
  parse_module_list sample_listing "exploit" <> ["windows/smb/ms17_010"].
Proof. vm_compute. discriminate. Qed.

(** C2, amended: on the listing of the scenario with the type [exploit],
    [parse_module_list] returns the two identifiers
    [windows/smb/ms17_010] and [auxiliary/unrelated/foo]: the line of
    another type is kept, with its prefix. *)
Theorem parse_module_list_scenario :
  parse_module_list sample_listing "exploit"
  = ["windows/smb/ms17_010"; "auxiliary/unrelated/foo"].
Proof. vm_compute. reflexivity. Qed.

(** ** The filters *)

Section Filters.

Variable keep : string -> bool.

Lemma collect_filter (modules acc : list string) :
  fold_left (fun (filtered : list string) (module : string) =>
               if keep module then (filtered ++ [module])%list else filtered)
            modules acc
  = (acc ++ filter keep modules)%list.
Proof.
  revert acc; induction modules as [|m modules IH]; intros acc; simpl.
  - now rewrite app_nil_r.
  - rewrite IH. destruct (keep m); [|reflexivity].
    now rewrite <- app_assoc.
Qed.

Lemma Subseq_nil_l (l : list string) : Subseq [] l.
Proof. induction l; constructor; assumption. Qed.

Lemma Subseq_refl (l : list string) : Subseq l l.
Proof. induction l; constructor; assumption. Qed.

Lemma Subseq_firstn_filter (n : nat) (l : list string) :
  Subseq (firstn n (filter keep l)) l.
Proof.
  revert n; induction l as [|x l IH]; intros n; simpl.
  - rewrite firstn_nil. constructor.
  - destruct (keep x).
    + destruct n; simpl; [apply Subseq_nil_l | constructor; apply IH].
    + constructor; apply IH.
Qed.

Lemma Subseq_filter (l : list string) : Subseq (filter keep l) l.
Proof.
  rewrite <- (firstn_all (filter keep l)). apply Subseq_firstn_filter.
Qed.

End Filters.

Lemma filter_exploits_payloads_filter (modules : list string) :
  filter_exploits_payloads modules = filter (matches TOP_TECHNOLOGIES) modules.
Proof.
  unfold filter_exploits_payloads.
  exact (collect_filter (matches TOP_TECHNOLOGIES) modules []).
Qed.

Lemma filter_auxiliary_firstn (modules : list string) :
  filter_auxiliary modules
  = firstn 50 (filter (matches TOP_SERVICES) modules).
Proof.
  pose proof (collect_filter (matches TOP_SERVICES) modules []) as Hloop.
  unfold matches in Hloop. unfold filter_auxiliary. cbv zeta.
  rewrite Hloop. fold (matches TOP_SERVICES). rewrite app_nil_l.
  destruct (Nat.ltb_spec 50 (List.length (filter (matches TOP_SERVICES) modules)))
    as [Hlt|Hle]; [reflexivity|].
  symmetry. now apply firstn_all2.
Qed.

(** C4: the service policy returns the first 50 of the identifiers whose
    lowercased form contains a service keyword, in their input order; its
    length is [min 50] of the number of those identifiers, so at most 50. *)
Theorem filter_auxiliary_cap (modules : list string) :
  filter_auxiliary modules = firstn 50 (filter (matches TOP_SERVICES) modules)
  /\ List.length (filter_auxiliary modules)
     = Nat.min 50 (List.length (filter (matches TOP_SERVICES) modules))
  /\ List.length (filter_auxiliary modules) <= 50
  /\ Subseq (filter_auxiliary modules) modules.
Proof.
  rewrite filter_auxiliary_firstn.
  split; [reflexivity|]. split; [apply length_firstn|].
  split; [rewrite length_firstn; apply Nat.le_min_l|].
  apply Subseq_firstn_filter.
Qed.

(** C6: the technology policy returns just the identifiers whose
    lowercased form contains a technology keyword, however many they are;
    the policy of the encoder, evasion, nop and post types hands the
    sequence on unchanged; and the output of either is the input with
    elements left out, the others in their order. *)
Theorem technology_and_identity_policies (modules : list string) :
  filter_exploits_payloads modules = filter (matches TOP_TECHNOLOGIES) modules
  /\ Forall (fun module_type =>
               value (apply_filtering module_type modules)
               = Ok (filter_exploits_payloads modules))
            ["exploit"; "payload"]
  /\ Forall (fun module_type =>
               apply_filtering module_type modules = ret modules)
            ["encoder"; "evasion"; "nop"; "post"]
  /\ Subseq (filter_exploits_payloads modules) modules
  /\ Subseq modules modules.
Proof.
  split; [apply filter_exploits_payloads_filter|].
  split; [repeat constructor|].
  split; [repeat constructor|].
  split; [|apply Subseq_refl].
  rewrite filter_exploits_payloads_filter. apply Subseq_filter.
Qed.

(** The cap is the service policy's alone: of 51 matching identifiers the
    technology policy keeps 51 and the service policy 50. *)
Example policies_on_51_matches :
  List.length (filter_exploits_payloads (repeat "windows/smb/x" 51)) = 51
  /\ List.length (filter_auxiliary (repeat "scanner/smb/x" 51)) = 50.
Proof. vm_compute. split; reflexivity. Qed.

(** ** Dictionaries *)

Section Dict.

Context {V : Type}.

Lemma dict_get_set (d : dict V) (k k' : string) (v : V) :
  dict_get (dict_set d k v) k'
  = if String.eqb k k' then Some v else dict_get d k'.
Proof.
  induction d as [|[k0 v0] d IH]; simpl.
  - reflexivity.
  - destruct (String.eqb_spec k0 k) as [->|Hk0]; simpl.
    + destruct (String.eqb k k'); reflexivity.
    + rewrite IH. destruct (String.eqb_spec k k') as [->|Hk]; [|reflexivity].
      apply String.eqb_neq in Hk0. now rewrite Hk0.
Qed.

Lemma dict_get_In (d : dict V) (k : string) (v : V) :
  dict_get d k = Some v -> In (k, v) d.
Proof.
  induction d as [|[k0 v0] d IH]; simpl; [discriminate|].
  destruct (String.eqb_spec k0 k) as [->|Hk0].
  - intros [= ->]. now left.
  - intros H. right. now apply IH.
Qed.

Lemma dict_get_None (d : dict V) (k : string) :
  dict_get d k = None -> ~ In k (keys d).
Proof.
  induction d as [|[k0 v0] d IH]; simpl; [tauto|].
  destruct (String.eqb_spec k0 k) as [->|Hk0]; [discriminate|].
  intros H [Heq|Hin]; [contradiction | now apply IH].
Qed.

Lemma In_dict_get (d : dict V) (k : string) (v : V) :
  NoDup (keys d) -> In (k, v) d -> dict_get d k = Some v.
Proof.
  induction d as [|[k0 v0] d IH]; simpl; [tauto|].
  intros Hnd [Heq|Hin].
  - injection Heq as -> ->. now rewrite String.eqb_refl.
  - inversion Hnd as [|? ? Hk0 Hnd']; subst.
    destruct (String.eqb_spec k0 k) as [->|Hne]; [|now apply IH].
    exfalso. apply Hk0. change k with (fst (k, v)). now apply in_map.
Qed.

Lemma keys_dict_set (d : dict V) (k : string) (v : V) :
  keys (dict_set d k v)
  = match dict_get d k with
    | Some _ => keys d
    | None => (keys d ++ [k])%list
    end.
Proof.
  induction d as [|[k0 v0] d IH]; simpl; [reflexivity|].
  destruct (String.eqb k0 k); simpl; [reflexivity|].
  rewrite IH. now destruct (dict_get d k).
Qed.

Lemma NoDup_keys_dict_set (d : dict V) (k : string) (v : V) :
  NoDup (keys d) -> NoDup (keys (dict_set d k v)).
Proof.
  intros Hnd. rewrite keys_dict_set.
  destruct (dict_get d k) eqn:Hget; [assumption|].
  apply dict_get_None in Hget.
  apply NoDup_app; [assumption | repeat constructor; intros [] |].
  intros x Hx [<-|[]]. contradiction.
Qed.

End Dict.

(** ** Categorization *)

Section Categorization.

Lemma contains_slash_cons (c : ascii) (s : string) :
  Str.contains "/" (String c s) = Ascii.eqb "/" c || Str.contains "/" s.
Proof. simpl. now rewrite andb_true_r. Qed.

Lemma split_without_slash (s : string) :
  Str.contains "/" s = false -> Str.split "/" s = [s].
Proof.
  induction s as [|c s IH]; [reflexivity|].
  rewrite contains_slash_cons. intros H.
  apply orb_false_iff in H as [Hc Hs].
  simpl. rewrite Ascii.eqb_sym, Hc, (IH Hs). reflexivity.
Qed.

Lemma split_first_segment (a b : string) :
  Str.contains "/" a = false ->
  Str.split "/" (a ++ "/" ++ b) = a :: Str.split "/" b.
Proof.
  induction a as [|c a IH]; [reflexivity|].
  rewrite contains_slash_cons. intros H.
  apply orb_false_iff in H as [Hc Ha].
  simpl. rewrite Ascii.eqb_sym, Hc. simpl in IH. now rewrite (IH Ha).
Qed.

Lemma category_of_without_slash (m : string) :
  Str.contains "/" m = false -> category_of m = "other".
Proof. intros H. unfold category_of. now rewrite split_without_slash. Qed.

Lemma category_of_first_segment (a b : string) :
  Str.contains "/" a = false -> category_of (a ++ "/" ++ b) = a.
Proof.
  intros H. unfold category_of. rewrite split_first_segment by assumption.
  destruct (Str.split "/" b) eqn:Hb; [|reflexivity].
  now apply split_not_nil in Hb.
Qed.

Lemma organize_module_category (d : dict (list string)) (m : string) :
  organize_module d m = defaultdict_append d (category_of m) m.
Proof.
  unfold organize_module, category_of.
  destruct (Str.split "/" m) as [|a [|b t]]; reflexivity.
Qed.

Lemma defaultdict_get_append (d : dict (list string)) (k k' m : string) :
  defaultdict_get (defaultdict_append d k m) k'
  = if String.eqb k k' then (defaultdict_get d k ++ [m])%list
    else defaultdict_get d k'.
Proof.
  unfold defaultdict_append, defaultdict_get at 1. rewrite dict_get_set.
  destruct (String.eqb k k'); reflexivity.
Qed.

Lemma total_listed_append (d : dict (list string)) (k m : string) :
  total_listed (defaultdict_append d k m) = S (total_listed d).
Proof.
  unfold defaultdict_append, defaultdict_get, total_listed, values.
  induction d as [|[k0 l0] d IH]; simpl; [reflexivity|].
  destruct (String.eqb k0 k); simpl.
  - rewrite length_app. simpl. lia.
  - rewrite IH. lia.
Qed.

Lemma organize_fold_get (modules : list string) :
  forall d k,
    defaultdict_get (fold_left organize_module modules d) k
    = (defaultdict_get d k
       ++ filter (fun m => String.eqb (category_of m) k) modules)%list.
Proof.
  induction modules as [|m modules IH]; intros d k; simpl.
  - now rewrite app_nil_r.
  - rewrite IH, organize_module_category, defaultdict_get_append.
    destruct (String.eqb_spec (category_of m) k) as [->|Hne].
    + now rewrite <- app_assoc.
    + reflexivity.
Qed.

Lemma organize_fold_total (modules : list string) :
  forall d,
    total_listed (fold_left organize_module modules d)
    = total_listed d + List.length modules.
Proof.
  induction modules as [|m modules IH]; intros d; simpl; [lia|].
  rewrite IH, organize_module_category, total_listed_append. lia.
Qed.

Lemma organize_fold_NoDup (modules : list string) :
  forall d,
    NoDup (keys d) -> NoDup (keys (fold_left organize_module modules d)).
Proof.
  induction modules as [|m modules IH]; intros d Hnd; simpl; [assumption|].
  apply IH. rewrite organize_module_category.
  now apply NoDup_keys_dict_set.
Qed.

Lemma organize_listed (modules : list string) (k : string) (l : list string) :
  dict_get (organize_modules_by_category modules) k = Some l ->
  l = filter (fun m => String.eqb (category_of m) k) modules.
Proof.
  intros Hget.
  pose proof (organize_fold_get modules [] k) as H.
  fold (organize_modules_by_category modules) in H.
  unfold defaultdict_get in H. rewrite Hget in H. exact H.
Qed.

End Categorization.

(** C5: categorization loses and invents nothing.  The lists of the
    mapping hold as many identifiers as the input; no category occurs twice;
    the list of a category is the input identifiers of that category, in
    input order; so every input identifier is in the list of its category
    and in no other list. *)
Theorem organize_modules_by_category_lossless (modules : list string) :
  let organized := organize_modules_by_category modules in
  total_listed organized = List.length modules
  /\ NoDup (keys organized)
  /\ (forall k l, In (k, l) organized ->
        l = filter (fun m => String.eqb (category_of m) k) modules)
  /\ (forall m, In m modules ->
        exists l, In (category_of m, l) organized /\ In m l)
  /\ (forall m k l, In (k, l) organized -> In m l -> k = category_of m).
Proof.
  intros organized.
  assert (Hnd : NoDup (keys organized))
    by (apply organize_fold_NoDup; constructor).
  assert (Hlist : forall k l, In (k, l) organized ->
            l = filter (fun m => String.eqb (category_of m) k) modules).
  { intros k l Hin. apply organize_listed. now apply In_dict_get. }
  split; [exact (organize_fold_total modules [])|].
  split; [exact Hnd|]. split; [exact Hlist|]. split.
  - intros m Hm.
    pose proof (organize_fold_get modules [] (category_of m)) as Hget.
    fold (organize_modules_by_category modules) in Hget. fold organized in Hget.
    assert (Hin : In m (defaultdict_get organized (category_of m))).
    { rewrite Hget. simpl. apply filter_In. split; [assumption|].
      apply String.eqb_refl. }
    unfold defaultdict_get in Hin.
    destruct (dict_get organized (category_of m)) as [l|] eqn:Hl; [|destruct Hin].
    exists l. split; [now apply dict_get_In | assumption].
  - intros m k l Hkl Hm. rewrite (Hlist k l Hkl) in Hm.
    apply filter_In in Hm as [_ Heq]. symmetry. now apply String.eqb_eq.
Qed.

(** C10: when one more identifier is categorized, an identifier without a
    ['/'] is put last in the list of the key [other], and an identifier
    [category/rest] is put last, whole, in the list of [category]. *)
Theorem organize_modules_by_category_appends (modules : list string)
    (m : string) :
  let before := organize_modules_by_category modules in
  let after := organize_modules_by_category (modules ++ [m]) in
  (Str.contains "/" m = false ->
   dict_get after "other" = Some (defaultdict_get before "other" ++ [m])%list)
  /\ (forall category rest,
        Str.contains "/" category = false ->
        m = category ++ "/" ++ rest ->
        dict_get after category
        = Some (defaultdict_get before category ++ [m])%list).
Proof.
  intros before after.
  assert (Hafter : after = defaultdict_append before (category_of m) m).
  { unfold after, organize_modules_by_category.
    rewrite fold_left_app. simpl. apply organize_module_category. }
  assert (Hget : dict_get after (category_of m)
                 = Some (defaultdict_get before (category_of m) ++ [m])%list).
  { rewrite Hafter. unfold defaultdict_append. rewrite dict_get_set.
    now rewrite String.eqb_refl. }
  split.
  - intros Hno. now rewrite (category_of_without_slash m Hno) in Hget.
  - intros category rest Hno Hm. rewrite Hm in Hget.
    rewrite (category_of_first_segment category rest Hno) in Hget.
    now rewrite Hm.
Qed.

Lemma organize_modules_by_category_appends_witness :
  dict_get (organize_modules_by_category (["windows/smb/a"; "readme"] ++ ["notes"]))
           "other"
  = Some ["readme"; "notes"]
  /\ dict_get (organize_modules_by_category
                 (["windows/smb/a"; "readme"] ++ ["windows/http/b"]))
              "windows"
     = Some ["windows/smb/a"; "windows/http/b"].
Proof.
  split.
  - exact (proj1 (organize_modules_by_category_appends
                    ["windows/smb/a"; "readme"] "notes") eq_refl).
  - exact (proj2 (organize_modules_by_category_appends
                    ["windows/smb/a"; "readme"] "windows/http/b")
                 "windows" "http/b" eq_refl eq_refl).
Defined.

(** ** Effects *)

Lemma value_bind {A B : Type} (m : io A) (k : A -> io B) :
  value (bind m k)
  = match value m with
    | Ok a => value (k a)
    | Raise e => Raise e
    end.
Proof. unfold bind. destruct (value m); reflexivity. Qed.

Section Effects.

Context {A B : Type}.

Lemma value_for_each_pure (f : B -> A -> B) (body : B -> A -> io B)
    (xs : list A) :
  (forall acc x, In x xs -> value (body acc x) = Ok (f acc x)) ->
  forall acc, value (for_each xs body acc) = Ok (fold_left f xs acc).
Proof.
  induction xs as [|x xs IH]; intros Hbody acc; cbn [for_each fold_left].
  - reflexivity.
  - rewrite value_bind, Hbody by now left.
    apply IH. intros acc' y Hy. apply Hbody. now right.
Qed.

End Effects.

(** ** The command runner *)

Lemma run_msfconsole_command_value (w : world) (command : string) :
  (forall e, subprocess_run w (msfconsole_argv command) 300 = Raised e ->
             is_Exception (exn_cls e) = true) ->
  value (run_msfconsole_command w command)
  = Ok match subprocess_run w (msfconsole_argv command) 300 with
       | Completed stdout => stdout
       | Raised _ => ""
       end.
Proof.
  intros Hexn. unfold run_msfconsole_command.
  destruct (subprocess_run w (msfconsole_argv command) 300) as [out|e];
    [reflexivity|].
  destruct (is_TimeoutExpired (exn_cls e)); [reflexivity|].
  now rewrite (Hexn e eq_refl).
Qed.

(** ** The report *)

Section Report.

Variable w : world.

Lemma apply_filtering_policy (module_type : string) (modules : list string) :
  value (apply_filtering module_type modules) = Ok (policy module_type modules).
Proof.
  unfold apply_filtering, policy.
  destruct (str_in module_type ["exploit"; "payload"]); [reflexivity|].
  destruct (String.eqb module_type "auxiliary"); reflexivity.
Qed.

Lemma enumerate_type_value (result : report) (module_type : string) :
  (forall e,
     subprocess_run w (msfconsole_argv ("search type:" ++ module_type)) 300
       = Raised e ->
     is_Exception (exn_cls e) = true) ->
  value (enumerate_type w result module_type)
  = Ok (record_type result module_type (filtered_modules w module_type)).
Proof.
  intros Hexn. unfold enumerate_type.
  rewrite value_bind. simpl value at 1. cbv iota beta.
  rewrite value_bind, (run_msfconsole_command_value _ _ Hexn).
  rewrite value_bind. simpl value at 1. cbv iota beta.
  rewrite value_bind, apply_filtering_policy. reflexivity.
Qed.

Lemma record_filtered_total (types : list string) :
  forall result,
    total_modules (report_metadata (fold_left (record_filtered w) types result))
    = total_modules (report_metadata result)
      + list_sum (values (counted w types)).
Proof.
  induction types as [|t types IH]; intros result; simpl; [lia|].
  rewrite IH. simpl. lia.
Qed.

Lemma record_filtered_by_type (types : list string) (t : string) :
  In t types ->
  forall result,
    dict_get (by_type (report_metadata (fold_left (record_filtered w) types result))) t
    = Some (List.length (filtered_modules w t)).
Proof.
  induction types as [|t0 types IH] using rev_ind; intros Hin result;
    [destruct Hin|].
  rewrite fold_left_app. simpl. rewrite dict_get_set.
  destruct (String.eqb_spec t0 t) as [->|Hne]; [reflexivity|].
  apply in_app_or in Hin as [Hin|[Heq|[]]]; [now apply IH | contradiction].
Qed.

End Report.

Lemma enumerate_all_modules_value (w : world) :
  uninterrupted w ->
  value (enumerate_all_modules w)
  = Ok (stamp (fold_left (record_filtered w) module_types initial_report)
              (utcnow_isoformat w ++ "Z")).
Proof.
  intros Hw. unfold enumerate_all_modules.
  rewrite value_bind. simpl value at 1. cbv iota beta.
  rewrite value_bind.
  rewrite (value_for_each_pure (record_filtered w)); [reflexivity|].
  intros acc t Ht. apply enumerate_type_value.
  intros e He. exact (Hw t e Ht He).
Qed.

(** C3: when no query is interrupted, the run assembles a report in which
    the count of each of the seven module types is the length of that
    type's filtered sequence, the inventory of the type is the
    categorization of that same sequence, and the total is the sum of the
    seven counts. *)
Theorem report_counts (w : world) :
  uninterrupted w ->
  exists r,
    value (enumerate_all_modules w) = Ok r
    /\ by_type (report_metadata r) = counted w module_types
    /\ report_modules r = categorized w module_types
    /\ (forall t, In t module_types ->
          dict_get (by_type (report_metadata r)) t
          = Some (List.length (filtered_modules w t)))
    /\ total_modules (report_metadata r)
       = list_sum (values (by_type (report_metadata r))).
Proof.
  intros Hw. eexists. split; [now apply enumerate_all_modules_value|].
  assert (Hby : by_type (report_metadata
                  (fold_left (record_filtered w) module_types initial_report))
                = counted w module_types) by reflexivity.
  split; [exact Hby|]. split; [reflexivity|]. split.
  - intros t Ht. now apply record_filtered_by_type.
  - cbn [stamp report_metadata total_modules by_type].
    rewrite Hby. now rewrite record_filtered_total.
Qed.

Lemma report_counts_witness :
  exists r,
    value (enumerate_all_modules sample_world) = Ok r
    /\ by_type (report_metadata r) = counted sample_world module_types
    /\ report_modules r = categorized sample_world module_types
    /\ (forall t, In t module_types ->
          dict_get (by_type (report_metadata r)) t
          = Some (List.length (filtered_modules sample_world t)))
    /\ total_modules (report_metadata r)
       = list_sum (values (by_type (report_metadata r))).
Proof.
  apply (report_counts sample_world).
  intros t e _ He. discriminate He.
Defined.

(** In the report of [sample_world] the count of the exploit type is 1,
    the length of the filtered sequence, where the parser returned 2. *)
Example report_counts_filtered_not_raw :
  List.length (parse_module_list (listing_of sample_world "exploit") "exploit") = 2
  /\ exists r,
       value (enumerate_all_modules sample_world) = Ok r
       /\ dict_get (by_type (report_metadata r)) "exploit" = Some 1
       /\ total_modules (report_metadata r) = 11.
Proof.
  split; [vm_compute; reflexivity|].
  eexists. split; [vm_compute; reflexivity|].
  split; vm_compute; reflexivity.
Qed.

(** C8: when what [subprocess.run] raises is an [Exception] (a timeout, a
    missing tool, an I/O error), [run_msfconsole_command] returns to its
    caller: the captured standard output when the process completed, and
    the empty text, with one line of diagnostic, on a timeout and on any
    other such failure. *)
Theorem run_msfconsole_command_never_raises (w : world) (command : string) :
  (forall e, subprocess_run w (msfconsole_argv command) 300 = Raised e ->
             is_Exception (exn_cls e) = true) ->
  exists out,
    value (run_msfconsole_command w command) = Ok out
    /\ (forall stdout,
          subprocess_run w (msfconsole_argv command) 300 = Completed stdout ->
          out = stdout /\ printed (run_msfconsole_command w command) = [])
    /\ (forall e,
          subprocess_run w (msfconsole_argv command) 300 = Raised e ->
          out = ""
          /\ printed (run_msfconsole_command w command)
             = [if is_TimeoutExpired (exn_cls e)
                then "Command timed out: " ++ command
                else "Error running command: " ++ exn_msg e]).
Proof.
  intros Hexn. unfold run_msfconsole_command.
  destruct (subprocess_run w (msfconsole_argv command) 300) as [out|e].
  - exists out. split; [reflexivity|]. split.
    + intros stdout [= <-]. now split.
    + intros e [=].
  - exists "". specialize (Hexn e eq_refl).
    destruct (is_TimeoutExpired (exn_cls e)) eqn:Htimeout.
    + split; [reflexivity|]. split; [intros stdout [=]|].
      intros e' [= <-]. now rewrite Htimeout.
    + rewrite Hexn. split; [reflexivity|]. split; [intros stdout [=]|].
      intros e' [= <-]. now rewrite Htimeout.
Qed.

Lemma run_msfconsole_command_never_raises_witness :
  exists out,
    value (run_msfconsole_command missing_tool_world "search type:nop") = Ok out
    /\ (forall stdout,
          subprocess_run missing_tool_world
            (msfconsole_argv "search type:nop") 300 = Completed stdout ->
          out = stdout
          /\ printed (run_msfconsole_command missing_tool_world "search type:nop")
             = [])
    /\ (forall e,
          subprocess_run missing_tool_world
            (msfconsole_argv "search type:nop") 300 = Raised e ->
          out = ""
          /\ printed (run_msfconsole_command missing_tool_world "search type:nop")
             = [if is_TimeoutExpired (exn_cls e)
                then "Command timed out: " ++ "search type:nop"
                else "Error running command: " ++ exn_msg e]).
Proof.
  apply (run_msfconsole_command_never_raises missing_tool_world
           "search type:nop").
  intros e He. injection He as <-. reflexivity.
Defined.

(** An interrupt is not an [Exception]: the command runner lets it pass. *)
Example run_msfconsole_command_interrupted :
  value (run_msfconsole_command
           (World (fun _ _ => Raised (Exn KeyboardInterrupt "")) "")
           "search type:nop")
  = Raise (Exn KeyboardInterrupt "").
Proof. reflexivity. Qed.

(** ** The detail parser *)

Section DetailParser.

Lemma bind_ret {A B : Type} (a : A) (k : A -> io B) (b : B) :
  k a = ret b -> bind (ret a) k = ret b.
Proof. intros H. unfold bind. simpl. now rewrite H. Qed.

(** What one line may change.  A line leaves a field alone unless it
    carries the marker of that field. *)
Lemma info_line_fields (st : parse_state) (line0 : string) :
  exists st',
    info_line st line0 = ret st'
    /\ path (info st') = path (info st)
    /\ targets (info st') = targets (info st)
    /\ options (info st') = options (info st)
    /\ payloads (info st') = payloads (info st)
    /\ (Str.startswith "Name:" (Str.strip line0) = false ->
        name (info st') = name (info st))
    /\ (Str.contains "Description:" (Str.strip line0) = false ->
        current_section st = NoSection ->
        current_section st' = NoSection
        /\ description (info st') = description (info st))
    /\ (Str.contains "Rank:" (Str.strip line0) = false ->
        rank (info st') = rank (info st))
    /\ (Str.contains "Platform:" (Str.strip line0) = false ->
        Str.contains "Available targets:" (Str.strip line0) = false ->
        platform (info st') = platform (info st)).
Proof.
  unfold info_line. set (line := Str.strip line0).
  destruct (Str.startswith "Name:" line) eqn:HName.
  { eexists. split; [reflexivity|]. simpl. repeat split; congruence || tauto. }
  destruct (Str.contains "Description:" line) eqn:HDesc.
  { eexists. split; [reflexivity|]. simpl. repeat split; congruence || tauto. }
  destruct (in_description (current_section st) && negb (Str.is_empty line)
            && negb (Str.startswith "Module" line)) eqn:HCapture.
  { eexists. split; [reflexivity|]. simpl. repeat split; try congruence.
    all: match goal with
         | Hsec : current_section _ = NoSection |- _ =>
             rewrite Hsec in HCapture; discriminate
         end. }
  destruct (Str.contains "Rank:" line) eqn:HRank.
  { destruct (search_rank line) as [g|]; simpl.
    - eexists. split; [reflexivity|]. simpl. repeat split; congruence || tauto.
    - exists st. repeat split; congruence || tauto. }
  destruct (Str.contains "Platform:" line || Str.contains "Available targets:" line)
    eqn:HPlat.
  { destruct (Str.split ":" line) as [|p0 [|p1 ps]]; simpl.
    - exists st. repeat split; tauto.
    - exists st. repeat split; tauto.
    - eexists. split; [reflexivity|]. simpl. repeat split; try tauto.
      intros H1 H2. rewrite H1, H2 in HPlat. discriminate. }
  exists st. repeat split; tauto.
Qed.

(** The same over the whole loop. *)
Lemma info_lines_fields (lines : list string) :
  forall st,
  exists st',
    for_each lines info_line st = ret st'
    /\ path (info st') = path (info st)
    /\ targets (info st') = targets (info st)
    /\ options (info st') = options (info st)
    /\ payloads (info st') = payloads (info st)
    /\ (Forall (fun l => Str.startswith "Name:" l = false) (map Str.strip lines) ->
        name (info st') = name (info st))
    /\ (Forall (fun l => Str.contains "Description:" l = false)
               (map Str.strip lines) ->
        current_section st = NoSection ->
        current_section st' = NoSection
        /\ description (info st') = description (info st))
    /\ (Forall (fun l => Str.contains "Rank:" l = false) (map Str.strip lines) ->
        rank (info st') = rank (info st))
    /\ (Forall (fun l => Str.contains "Platform:" l = false
                         /\ Str.contains "Available targets:" l = false)
               (map Str.strip lines) ->
        platform (info st') = platform (info st)).
Proof.
  induction lines as [|line lines IH]; intros st.
  - exists st. repeat split; tauto.
  - destruct (info_line_fields st line)
      as (st1 & Hrun1 & Hp1 & Ht1 & Ho1 & Hy1 & Hn1 & Hd1 & Hr1 & Hf1).
    destruct (IH st1)
      as (st2 & Hrun2 & Hp2 & Ht2 & Ho2 & Hy2 & Hn2 & Hd2 & Hr2 & Hf2).
    exists st2. cbn [for_each map]. rewrite Hrun1.
    split; [now apply bind_ret|].
    do 4 (split; [congruence|]).
    split.
    { intros H. inversion H as [|? ? Hhd Htl]; subst.
      now rewrite (Hn2 Htl), (Hn1 Hhd). }
    split.
    { intros H Hsec. inversion H as [|? ? Hhd Htl]; subst.
      destruct (Hd1 Hhd Hsec) as [Hs1 He1].
      destruct (Hd2 Htl Hs1) as [Hs2 He2].
      split; congruence. }
    split.
    { intros H. inversion H as [|? ? Hhd Htl]; subst.
      now rewrite (Hr2 Htl), (Hr1 Hhd). }
    intros H. inversion H as [|? ? [Ha Hb] Htl]; subst.
    now rewrite (Hf2 Htl), (Hf1 Ha Hb).
Qed.

End DetailParser.

(** C7: the detail parser returns a record for every detail text: nothing
    is raised.  The path is the one asked for; the fields the parser never
    fills stay empty; the name, the description, the rank and the platform
    list are empty whenever no line carries the marker that fills them; and
    on the empty text every field has its default. *)
Theorem parse_module_info_total (module_path output : string) :
  exists i,
    parse_module_info module_path output = ret i
    /\ path i = module_path
    /\ targets i = [] /\ options i = [] /\ payloads i = []
    /\ (Forall (fun l => Str.startswith "Name:" l = false) (detail_lines output) ->
        name i = "")
    /\ (Forall (fun l => Str.contains "Description:" l = false)
               (detail_lines output) ->
        description i = "")
    /\ (Forall (fun l => Str.contains "Rank:" l = false) (detail_lines output) ->
        rank i = "")
    /\ (Forall (fun l => Str.contains "Platform:" l = false
                         /\ Str.contains "Available targets:" l = false)
               (detail_lines output) ->
        platform i = [])
    /\ parse_module_info module_path "" = ret (initial_info module_path).
Proof.
  destruct (info_lines_fields (Str.split "010" output)
              (ParseState (initial_info module_path) NoSection))
    as (st & Hrun & Hp & Ht & Ho & Hy & Hn & Hd & Hr & Hf).
  exists (info st). unfold parse_module_info, detail_lines.
  rewrite Hrun.
  split; [reflexivity|].
  do 4 (split; [assumption|]).
  split; [intros H; now rewrite (Hn H)|].
  split; [intros H; now destruct (Hd H eq_refl) as [_ ->]|].
  split; [intros H; now rewrite (Hr H)|].
  split; [intros H; now rewrite (Hf H)|].
  reflexivity.
Qed.

(** ** Platform lines *)

Section PlatformLines.

Lemma startswith_has_char (c : ascii) (p s : string) :
  Str.startswith p s = true -> has_char c p = true -> has_char c s = true.
Proof.
  revert s; induction p as [|a p IH]; intros s Hpre Hc; [discriminate|].
  destruct s as [|b s]; simpl in Hpre; [discriminate|].
  apply andb_true_iff in Hpre as [Hab Hpre].
  apply Ascii.eqb_eq in Hab; subst b.
  simpl in *. apply orb_true_iff in Hc as [Hc|Hc].
  - now rewrite Hc.
  - rewrite (IH s Hpre Hc). apply orb_true_r.
Qed.

Lemma contains_has_char (c : ascii) (p s : string) :
  Str.contains p s = true -> has_char c p = true -> has_char c s = true.
Proof.
  intros Hin Hc. induction s as [|b s IH].
  - simpl in Hin. rewrite orb_false_r in Hin.
    now apply (startswith_has_char c p "").
  - cbn [Str.contains] in Hin. apply orb_true_iff in Hin as [Hpre|Hin].
    + now apply (startswith_has_char c p).
    + simpl. rewrite (IH Hin). apply orb_true_r.
Qed.

Lemma split_segments (sep : ascii) (s : string) :
  Str.split sep s
  = before_first sep s
    :: (if has_char sep s then Str.split sep (after_first sep s) else []).
Proof.
  induction s as [|c s IH]; [reflexivity|].
  simpl. destruct (Ascii.eqb c sep); simpl; [reflexivity|].
  now rewrite IH.
Qed.

Lemma split_second_segment (sep : ascii) (s : string) :
  has_char sep s = true ->
  exists rest,
    Str.split sep s
    = before_first sep s :: before_first sep (after_first sep s) :: rest.
Proof.
  intros Hc. rewrite split_segments, Hc.
  rewrite (split_segments sep (after_first sep s)). eauto.
Qed.

Lemma stripped_nonempty_filter (pieces : list string) :
  stripped_nonempty pieces
  = filter (fun p => negb (Str.is_empty p)) (map Str.strip pieces).
Proof.
  unfold stripped_nonempty.
  induction pieces as [|p pieces IH]; [reflexivity|].
  simpl. destruct (negb (Str.is_empty (Str.strip p))); simpl; now rewrite IH.
Qed.

Lemma platform_marker_has_colon (line : string) :
  Str.contains "Platform:" line || Str.contains "Available targets:" line = true ->
  has_char ":" line = true.
Proof.
  intros H. apply orb_true_iff in H as [H|H].
  - now apply (contains_has_char ":" "Platform:").
  - now apply (contains_has_char ":" "Available targets:").
Qed.

End PlatformLines.

(** C9, as the specification has it, fails: on the line
    [Platform: a:b, c] the parser appends [a] alone, where everything after
    the first [':'], split on commas, is [a:b] and [c]. *)
Lemma platform_after_first_colon_counterexample :
  ~ (forall st line0,
       Str.contains "Platform:" (Str.strip line0)
       || Str.contains "Available targets:" (Str.strip line0) = true ->
       exists st',
         info_line st line0 = ret st'
         /\ platform (info st')
            = (platform (info st)
               ++ platform_pieces_as_specified (Str.strip line0))%list).
Proof.
  intros H.
  destruct (H (ParseState (initial_info "m") NoSection) "Platform: a:b, c" eq_refl)
    as (st' & Hrun & Hplatform).
  vm_compute in Hrun. injection Hrun as <-.
  vm_compute in Hplatform. discriminate.
Qed.

(** C9, amended: a trimmed line that has one of the two markers and that
    no earlier case of the parser takes (it does not start with [Name:],
    has neither [Description:] nor [Rank:], and is not read as the pending
    description) changes the platform list alone: the text between its first
    [':'] and the next [':'], or the end of the line, is trimmed and split on
    commas, each piece is trimmed, and the pieces that are not empty are put
    after the entries collected so far. *)
Theorem platform_line_appends (st : parse_state) (line0 : string) :
  reaches_platform st (Str.strip line0) = true ->
  exists st',
    info_line st line0 = ret st'
    /\ platform (info st')
       = (platform (info st) ++ platform_pieces (Str.strip line0))%list
    /\ st' = ParseState
               (extend_platform (info st) (platform_pieces (Str.strip line0)))
               (current_section st).
Proof.
  unfold reaches_platform, info_line. set (line := Str.strip line0).
  intros H.
  apply andb_true_iff in H as [H HPlat].
  apply andb_true_iff in H as [H HRank].
  apply andb_true_iff in H as [H HCapture].
  apply andb_true_iff in H as [HName HDesc].
  apply negb_true_iff in HName, HDesc, HCapture, HRank.
  rewrite HName, HDesc, HCapture, HRank, HPlat.
  destruct (split_second_segment ":" line (platform_marker_has_colon line HPlat))
    as [rest Hparts].
  rewrite Hparts. unfold platform_pieces.
  rewrite <- stripped_nonempty_filter.
  eexists. split; [reflexivity|]. split; reflexivity.
Qed.

Lemma platform_line_appends_witness :
  exists st',
    info_line (ParseState (extend_platform (initial_info "m") ["Windows"]) NoSection)
              "  Platform: Linux, , Unix:BSD  "
    = ret st'
    /\ platform (info st') = ["Windows"; "Linux"; "Unix"].
Proof.
  destruct (platform_line_appends
              (ParseState (extend_platform (initial_info "m") ["Windows"]) NoSection)
              "  Platform: Linux, , Unix:BSD  " eq_refl)
    as (st' & Hrun & Hplatform & _).
  exists st'. split; [exact Hrun | exact Hplatform].
Defined.

(** The platform entries of several lines pile up in the record. *)
Example platform_lines_accumulate :
  parse_module_info "m"
    ("Name: Test Module" ++ Str.nl ++ "Platform: Windows, Linux" ++ Str.nl
     ++ "Rank: Excellent" ++ Str.nl ++ "Description:" ++ Str.nl
     ++ "A sample module." ++ Str.nl ++ "Platform: Unix" ++ Str.nl)
  = ret (ModuleInfo "m" "Test Module" "A sample module." "excellent"
                    ["Windows"; "Linux"; "Unix"] [] [] []).
Proof. vm_compute. reflexivity. Qed.

(** * Further properties *)

(** ** The list parser, line by line *)

Section ListParserLines.

Variable module_type : string.

Lemma split_app_sep (sep : ascii) (a b : string) :
  Str.split sep (a ++ String sep b)
  = (Str.split sep a ++ Str.split sep b)%list.
Proof.
  induction a as [|c a IH]; simpl.
  - now rewrite Ascii.eqb_refl.
  - destruct (Ascii.eqb c sep); simpl; [now rewrite IH|].
    rewrite IH. destruct (Str.split sep a) as [|h t] eqn:Ha; [|reflexivity].
    now apply split_not_nil in Ha.
Qed.

Lemma parse_module_line_acc (acc : list string) (line : string) :
  parse_module_line module_type acc line
  = (acc ++ parse_module_line module_type [] line)%list.
Proof.
  unfold parse_module_line.
  destruct (_ || _ || _); [now rewrite app_nil_r|].
  destruct (_ || _ || _); [now rewrite app_nil_r|].
  destruct (Str.split_ws (Str.strip line)) as [|p0 ps];
    [now rewrite app_nil_r|].
  destruct (Str.contains "/" p0); [reflexivity | now rewrite app_nil_r].
Qed.

Lemma parse_module_lines_flat_map (lines acc : list string) :
  fold_left (parse_module_line module_type) lines acc
  = (acc ++ flat_map (parse_module_line module_type []) lines)%list.
Proof.
  revert acc; induction lines as [|line lines IH]; intros acc; simpl.
  - now rewrite app_nil_r.
  - rewrite IH, (parse_module_line_acc acc line). now rewrite <- app_assoc.
Qed.

Lemma parse_module_list_flat_map (output : string) :
  parse_module_list output module_type
  = flat_map (parse_module_line module_type []) (Str.split "010" output).
Proof. unfold parse_module_list. now rewrite parse_module_lines_flat_map. Qed.

Lemma parse_module_line_at_most_one (line : string) :
  List.length (parse_module_line module_type [] line) <= 1.
Proof.
  unfold parse_module_line.
  destruct (_ || _ || _); [simpl; lia|].
  destruct (_ || _ || _); [simpl; lia|].
  destruct (Str.split_ws (Str.strip line)) as [|p0 ps]; [simpl; lia|].
  destruct (Str.contains "/" p0); simpl; lia.
Qed.

End ListParserLines.

(** X1: the list parser reads a listing line by line.  The identifiers of
    two listings joined by a newline are those of the first followed by
    those of the second, so the order of the lines is kept and a line that
    occurs twice gives its identifier twice; and a listing never gives more
    identifiers than it has lines. *)
Theorem parse_module_list_app (a b module_type : string) :
  parse_module_list (a ++ Str.nl ++ b) module_type
  = (parse_module_list a module_type ++ parse_module_list b module_type)%list
  /\ List.length (parse_module_list a module_type)
     <= List.length (Str.split "010" a).
Proof.
  split.
  - rewrite !parse_module_list_flat_map. unfold Str.nl. simpl (String _ _ ++ b).
    now rewrite split_app_sep, flat_map_app.
  - rewrite parse_module_list_flat_map.
    induction (Str.split "010" a) as [|line lines IH]; simpl; [lia|].
    rewrite length_app.
    pose proof (parse_module_line_at_most_one module_type line). lia.
Qed.

(** ** Tokens *)

Section Tokens.

Lemma any_char_app (p : ascii -> bool) (a b : string) :
  any_char p (a ++ b) = any_char p a || any_char p b.
Proof.
  induction a as [|c a IH]; simpl; [reflexivity|].
  now rewrite IH, orb_assoc.
Qed.

Lemma any_char_drop (p : ascii -> bool) (n : nat) (s : string) :
  any_char p s = false -> any_char p (Str.drop n s) = false.
Proof.
  revert s; induction n as [|n IH]; intros s H; [exact H|].
  destruct s as [|c s]; [reflexivity|].
  simpl in *. apply orb_false_iff in H as [_ H]. now apply IH.
Qed.

Lemma startswith_empty (p : string) :
  Str.startswith p "" = true -> p = "".
Proof. destruct p; [reflexivity | discriminate]. Qed.

Lemma startswith_app (p t b : string) :
  Str.startswith p t = true -> Str.startswith p (t ++ b) = true.
Proof.
  revert t; induction p as [|a p IH]; intros t H; [reflexivity|].
  destruct t as [|c t]; simpl in *; [discriminate|].
  apply andb_true_iff in H as [Hac Hp].
  now rewrite Hac, (IH t Hp).
Qed.

Lemma contains_app_l (p t b : string) :
  Str.contains p t = true -> Str.contains p (t ++ b) = true.
Proof.
  induction t as [|c t IH]; intros H.
  - simpl in H. rewrite orb_false_r in H.
    apply startswith_empty in H. subst p. now destruct b.
  - cbn [Str.contains] in H. apply orb_true_iff in H as [H|H].
    + change (String c t ++ b) with (String c (t ++ b)).
      cbn [Str.contains].
      change (String c (t ++ b)) with (String c t ++ b).
      now rewrite (startswith_app p (String c t) b H).
    + change (String c t ++ b) with (String c (t ++ b)).
      cbn [Str.contains]. rewrite (IH H). apply orb_true_r.
Qed.

Lemma contains_app_r (p a t : string) :
  Str.contains p t = true -> Str.contains p (a ++ t) = true.
Proof.
  intros H. induction a as [|c a IH]; [exact H|].
  change (String c a ++ t) with (String c (a ++ t)).
  cbn [Str.contains]. rewrite IH. apply orb_true_r.
Qed.

Lemma contains_drop (p : string) (n : nat) (s : string) :
  Str.contains p (Str.drop n s) = true -> Str.contains p s = true.
Proof.
  revert s; induction n as [|n IH]; intros s H; [exact H|].
  destruct s as [|c s]; [exact H|].
  simpl Str.drop in H. cbn [Str.contains]. rewrite (IH s H).
  apply orb_true_r.
Qed.

(** A token of [s.split()] has no white space and is a piece of [s]. *)
Lemma split_ws_from_token (s : string) :
  forall cur t,
    any_char Str.isspace cur = false ->
    In t (Str.split_ws_from cur s) ->
    any_char Str.isspace t = false
    /\ exists a b, cur ++ s = a ++ t ++ b.
Proof.
  induction s as [|c s IH]; intros cur t Hcur Hin.
  - simpl in Hin. destruct (Str.is_empty cur); [destruct Hin|].
    destruct Hin as [<-|[]]. split; [assumption|].
    exists "", "". reflexivity.
  - simpl in Hin. destruct (Str.isspace c) eqn:Hc.
    + destruct cur as [|x cur]; simpl in Hin.
      * destruct (IH "" t eq_refl Hin) as [Ht (a & b & Hab)].
        split; [assumption|]. exists (String c a), b.
        simpl in *. now rewrite Hab.
      * destruct Hin as [<-|Hin].
        { split; [assumption|]. exists "", (String c s). reflexivity. }
        destruct (IH "" t eq_refl Hin) as [Ht (a & b & Hab)].
        split; [assumption|].
        exists (String x cur ++ String c a), b.
        simpl in Hab. rewrite Hab, !append_assoc. reflexivity.
    + assert (Hcur' : any_char Str.isspace (cur ++ String c "") = false).
      { rewrite any_char_app, Hcur. simpl. now rewrite Hc. }
      destruct (IH _ t Hcur' Hin) as [Ht (a & b & Hab)].
      split; [assumption|]. exists a, b.
      rewrite <- Hab, append_assoc. reflexivity.
Qed.

Lemma split_ws_token (s t : string) :
  In t (Str.split_ws s) ->
  any_char Str.isspace t = false /\ exists a b, s = a ++ t ++ b.
Proof. intros H. exact (split_ws_from_token s "" t eq_refl H). Qed.

Lemma contains_token (p s t : string) :
  In t (Str.split_ws s) ->
  Str.contains p s = false -> Str.contains p t = false.
Proof.
  intros Hin Hs. destruct (Str.contains p t) eqn:Ht; [|reflexivity].
  destruct (split_ws_token s t Hin) as [_ (a & b & ->)].
  rewrite contains_app_r in Hs; [discriminate|].
  now apply contains_app_l.
Qed.

End Tokens.

Lemma parse_module_line_clean (module_type line m : string) :
  In m (parse_module_line module_type [] line) ->
  any_char Str.isspace m = false
  /\ Str.contains "Name" m = false
  /\ Str.contains "----" m = false.
Proof.
  unfold parse_module_line.
  destruct (_ || _ || _); [intros []|].
  destruct (Str.contains "Matching Modules" (Str.strip line)
            || Str.contains "Name" (Str.strip line)
            || Str.contains "----" (Str.strip line)) eqn:Hheader; [intros []|].
  apply orb_false_iff in Hheader as [Hheader Hdashes].
  apply orb_false_iff in Hheader as [_ HName].
  destruct (Str.split_ws (Str.strip line)) as [|p0 ps] eqn:Hparts; [intros []|].
  assert (Htoken : In p0 (Str.split_ws (Str.strip line)))
    by (rewrite Hparts; now left).
  destruct (split_ws_token _ _ Htoken) as [Hspace _].
  pose proof (contains_token "Name" _ _ Htoken HName) as HName0.
  pose proof (contains_token "----" _ _ Htoken Hdashes) as Hdashes0.
  destruct (Str.contains "/" p0); [|intros []].
  intros [<-|[]].
  destruct (Str.startswith (module_type ++ "/") p0).
  - split; [now apply any_char_drop|]. split.
    + destruct (Str.contains "Name" (Str.drop _ p0)) eqn:H; [|reflexivity].
      apply contains_drop in H. congruence.
    + destruct (Str.contains "----" (Str.drop _ p0)) eqn:H; [|reflexivity].
      apply contains_drop in H. congruence.
  - now repeat split.
Qed.

(** X2: an identifier the list parser returns has no white space, and it
    contains neither [Name] nor [----]: a line with one of these words is
    taken for a header, also when the word is part of a module path. *)
Theorem parse_module_list_clean (output module_type m : string) :
  In m (parse_module_list output module_type) ->
  any_char Str.isspace m = false
  /\ Str.contains "Name" m = false
  /\ Str.contains "----" m = false.
Proof.
  rewrite parse_module_list_flat_map. intros H.
  apply in_flat_map in H as (line & _ & Hline).
  now apply (parse_module_line_clean module_type line).
Qed.

Lemma parse_module_list_clean_witness :
  any_char Str.isspace "windows/smb/ms17_010" = false
  /\ Str.contains "Name" "windows/smb/ms17_010" = false
  /\ Str.contains "----" "windows/smb/ms17_010" = false.
Proof.
  apply (parse_module_list_clean sample_listing "exploit").
  vm_compute. left. reflexivity.
Defined.

(** A module whose path has the word [Name] is left out of the listing. *)
Example parse_module_list_drops_Name :
  parse_module_list "   auxiliary/gather/GetName  normal  No  Host names"
                    "auxiliary" = [].
Proof. vm_compute. reflexivity. Qed.

(** ** The filters, applied again *)

Section FiltersAgain.

Variable keep : string -> bool.

Lemma filter_idempotent (l : list string) :
  filter keep (filter keep l) = filter keep l.
Proof.
  induction l as [|x l IH]; [reflexivity|].
  simpl. destruct (keep x) eqn:Hx; [|exact IH].
  simpl. now rewrite Hx, IH.
Qed.

Lemma filter_all_kept (l : list string) :
  (forall x, In x l -> keep x = true) -> filter keep l = l.
Proof.
  induction l as [|x l IH]; intros H; [reflexivity|].
  simpl. rewrite (H x (or_introl eq_refl)). f_equal.
  apply IH. intros y Hy. apply H. now right.
Qed.

Lemma In_firstn (n : nat) (l : list string) (x : string) :
  In x (firstn n l) -> In x l.
Proof.
  revert n; induction l as [|y l IH]; intros n H.
  - now rewrite firstn_nil in H.
  - destruct n; [destruct H|]. destruct H as [Heq|H]; [now left|].
    right. now apply (IH n).
Qed.

Lemma filter_firstn_filter (n : nat) (l : list string) :
  filter keep (firstn n (filter keep l)) = firstn n (filter keep l).
Proof.
  apply filter_all_kept. intros x Hx.
  apply In_firstn in Hx. now apply filter_In in Hx.
Qed.

End FiltersAgain.

(** X3: both keyword filters keep only identifiers of their input whose
    lowercased form contains a keyword of their vocabulary, and filtering a
    filtered sequence again changes nothing. *)
Theorem filters_idempotent (modules : list string) :
  filter_exploits_payloads (filter_exploits_payloads modules)
  = filter_exploits_payloads modules
  /\ filter_auxiliary (filter_auxiliary modules) = filter_auxiliary modules
  /\ (forall m, In m (filter_exploits_payloads modules) ->
        In m modules /\ matches TOP_TECHNOLOGIES m = true)
  /\ (forall m, In m (filter_auxiliary modules) ->
        In m modules /\ matches TOP_SERVICES m = true).
Proof.
  split; [|split; [|split]].
  - rewrite !filter_exploits_payloads_filter. apply filter_idempotent.
  - rewrite !filter_auxiliary_firstn.
    rewrite filter_firstn_filter, firstn_firstn. now rewrite Nat.min_id.
  - intros m. rewrite filter_exploits_payloads_filter. apply filter_In.
  - intros m. rewrite filter_auxiliary_firstn. intros H.
    apply In_firstn in H. now apply filter_In.
Qed.

(** ** More on categorization *)

Section CategorizationMore.

Lemma before_first_no_sep (sep : ascii) (s : string) :
  has_char sep (before_first sep s) = false.
Proof.
  induction s as [|c s IH]; [reflexivity|].
  simpl. destruct (Ascii.eqb c sep) eqn:Hc; [reflexivity|].
  simpl. now rewrite Hc.
Qed.

Lemma before_after_first (sep : ascii) (s : string) :
  has_char sep s = true ->
  s = before_first sep s ++ String sep (after_first sep s).
Proof.
  induction s as [|c s IH]; [discriminate|].
  simpl. destruct (Ascii.eqb_spec c sep) as [->|Hc]; [reflexivity|].
  simpl. intros H. now rewrite <- (IH H).
Qed.

Lemma category_of_segments (m : string) :
  category_of m = if has_char "/" m then before_first "/" m else "other".
Proof.
  unfold category_of. rewrite split_segments.
  destruct (has_char "/" m); [|reflexivity].
  rewrite (split_segments "/" (after_first "/" m)). reflexivity.
Qed.

Lemma values_append_permutation (d : dict (list string)) (k m : string) :
  Permutation (List.concat (values (defaultdict_append d k m)))
              (m :: List.concat (values d)).
Proof.
  unfold defaultdict_append, defaultdict_get, values.
  induction d as [|[k0 l0] d IH]; simpl; [reflexivity|].
  destruct (String.eqb k0 k); simpl.
  - rewrite <- app_assoc. simpl. symmetry. apply Permutation_middle.
  - rewrite IH. symmetry. apply Permutation_middle.
Qed.

Lemma organize_fold_permutation (modules : list string) :
  forall d,
    Permutation (List.concat (values (fold_left organize_module modules d)))
                (List.concat (values d) ++ modules).
Proof.
  induction modules as [|m modules IH]; intros d; simpl.
  - now rewrite app_nil_r.
  - rewrite IH, organize_module_category, values_append_permutation.
    simpl. apply Permutation_middle.
Qed.

Lemma append_nonempty (d : dict (list string)) (k m : string) :
  Forall (fun kv => snd kv <> []) d ->
  Forall (fun kv => snd kv <> []) (defaultdict_append d k m).
Proof.
  unfold defaultdict_append, defaultdict_get.
  induction d as [|[k0 l0] d IH]; intros H; simpl.
  - repeat constructor. discriminate.
  - inversion H as [|? ? Hhd Htl]; subst.
    destruct (String.eqb k0 k); simpl.
    + constructor; [|assumption]. simpl. now destruct l0.
    + constructor; [assumption | now apply IH].
Qed.

Lemma organize_fold_nonempty (modules : list string) :
  forall d,
    Forall (fun kv => snd kv <> []) d ->
    Forall (fun kv => snd kv <> []) (fold_left organize_module modules d).
Proof.
  induction modules as [|m modules IH]; intros d H; simpl; [assumption|].
  apply IH. rewrite organize_module_category. now apply append_nonempty.
Qed.

End CategorizationMore.

(** X4: the lists of a categorization, put end to end, are a
    rearrangement of the input: every identifier is there as often as in
    the input. *)
Theorem organize_modules_by_category_permutation (modules : list string) :
  Permutation (List.concat (values (organize_modules_by_category modules))) modules.
Proof. exact (organize_fold_permutation modules []). Qed.

(** X5: a categorization has no empty list.  A key of the mapping is the
    category of an identifier of the input, it has no ['/'], and an
    identifier filed under it either starts with the key and a ['/'], or
    has no ['/'] at all and is filed under [other]. *)
Theorem organize_modules_by_category_keys (modules : list string)
    (k : string) (l : list string) :
  In (k, l) (organize_modules_by_category modules) ->
  l <> []
  /\ has_char "/" k = false
  /\ (exists m, In m modules /\ category_of m = k)
  /\ (forall m, In m l ->
        In m modules
        /\ (m = k ++ "/" ++ after_first "/" m
            \/ (has_char "/" m = false /\ k = "other"))).
Proof.
  intros Hin.
  assert (Hne : l <> []).
  { pose proof (organize_fold_nonempty modules [] (Forall_nil _)) as Hall.
    rewrite Forall_forall in Hall. exact (Hall (k, l) Hin). }
  assert (Hl : l = filter (fun m => String.eqb (category_of m) k) modules).
  { apply organize_listed. apply In_dict_get; [|assumption].
    apply organize_fold_NoDup. constructor. }
  assert (Hmem : forall m, In m l -> In m modules /\ category_of m = k).
  { intros m Hm. rewrite Hl in Hm. apply filter_In in Hm as [Hm Hk].
    split; [assumption | now apply String.eqb_eq]. }
  destruct l as [|m0 l0] eqn:El; [contradiction|].
  destruct (Hmem m0 (or_introl eq_refl)) as [Hm0 Hk0].
  split; [assumption|]. split.
  { rewrite <- Hk0, category_of_segments.
    destruct (has_char "/" m0); [apply before_first_no_sep | reflexivity]. }
  split; [now exists m0|].
  intros m Hm. destruct (Hmem m Hm) as [Hmod Hk].
  split; [assumption|].
  rewrite category_of_segments in Hk.
  destruct (has_char "/" m) eqn:Hslash.
  - left. rewrite <- Hk. now apply before_after_first.
  - right. now split.
Qed.

Lemma organize_modules_by_category_keys_witness :
  ["windows/smb/a"; "windows/http/b"] <> []
  /\ has_char "/" "windows" = false
  /\ (exists m, In m ["windows/smb/a"; "readme"; "windows/http/b"]
                /\ category_of m = "windows")
  /\ (forall m, In m ["windows/smb/a"; "windows/http/b"] ->
        In m ["windows/smb/a"; "readme"; "windows/http/b"]
        /\ (m = "windows" ++ "/" ++ after_first "/" m
            \/ (has_char "/" m = false /\ "windows" = "other"))).
Proof.
  apply (organize_modules_by_category_keys
           ["windows/smb/a"; "readme"; "windows/http/b"] "windows").
  vm_compute. left. reflexivity.
Defined.

(** ** The order of the categories *)

Section CategoryOrder.

Lemma filter_filter (p q : string -> bool) (l : list string) :
  filter p (filter q l) = filter (fun x => q x && p x) l.
Proof.
  induction l as [|x l IH]; [reflexivity|].
  simpl. destruct (q x); simpl; [|exact IH].
  destruct (p x); now rewrite IH.
Qed.

Lemma str_in_keys (d : dict (list string)) (k : string) :
  str_in k (keys d) = is_some (dict_get d k).
Proof.
  unfold str_in, keys.
  induction d as [|[k0 l0] d IH]; [reflexivity|].
  simpl. rewrite (String.eqb_sym k k0).
  destruct (String.eqb k0 k); [reflexivity | exact IH].
Qed.

Lemma organize_fold_keys (modules : list string) :
  forall d,
    keys (fold_left organize_module modules d)
    = (keys d
       ++ filter (fun k => negb (str_in k (keys d)))
                 (distinct_in_order (map category_of modules)))%list.
Proof.
  induction modules as [|m modules IH]; intros d; simpl.
  - now rewrite app_nil_r.
  - rewrite IH, organize_module_category.
    unfold defaultdict_append. rewrite keys_dict_set.
    pose proof (str_in_keys d (category_of m)) as Hin.
    destruct (dict_get d (category_of m)) as [l|]; simpl in Hin; rewrite Hin.
    + simpl. f_equal. rewrite filter_filter. apply filter_ext_in.
      intros y _. destruct (String.eqb_spec y (category_of m)) as [->|Hne];
        [now rewrite Hin | reflexivity].
    + simpl. rewrite <- app_assoc. simpl. do 2 f_equal.
      rewrite filter_filter. apply filter_ext_in.
      intros y _. unfold str_in. rewrite existsb_app. simpl.
      rewrite orb_false_r, negb_orb. apply andb_comm.
Qed.

End CategoryOrder.

(** X6: the keys of a categorization are the categories of the input
    identifiers, each once, in the order in which they first occur. *)
Theorem organize_modules_by_category_key_order (modules : list string) :
  keys (organize_modules_by_category modules)
  = distinct_in_order (map category_of modules).
Proof.
  unfold organize_modules_by_category. rewrite organize_fold_keys. simpl.
  apply filter_all_kept. reflexivity.
Qed.

(** ** Invariants of the detail parser *)

Section DetailInvariants.

Lemma value_for_each_app {A S : Type} (body : S -> A -> io S) (xs ys : list A) :
  forall acc,
    value (for_each (xs ++ ys) body acc)
    = match value (for_each xs body acc) with
      | Ok acc' => value (for_each ys body acc')
      | Raise e => Raise e
      end.
Proof.
  induction xs as [|x xs IH]; intros acc; [reflexivity|].
  cbn [for_each app]. rewrite !value_bind.
  destruct (value (body acc x)); [apply IH | reflexivity].
Qed.

(** A property of the state that every line keeps holds at the end. *)
Lemma info_lines_invariant (P : parse_state -> Prop) (all : list string) :
  (forall st line st',
     In line all -> value (info_line st line) = Ok st' -> P st -> P st') ->
  forall lines,
    incl lines all ->
    forall st st',
      value (for_each lines info_line st) = Ok st' -> P st -> P st'.
Proof.
  intros Hstep. induction lines as [|line lines IH]; intros Hincl st st' Hrun Hst.
  - injection Hrun as <-. exact Hst.
  - cbn [for_each] in Hrun. rewrite value_bind in Hrun.
    destruct (value (info_line st line)) as [st1|e] eqn:Hline; [|discriminate].
    apply (IH (fun x Hx => Hincl x (or_intror Hx)) st1 st' Hrun).
    apply (Hstep st line st1); [apply Hincl; now left | assumption | assumption].
Qed.

Lemma parse_module_info_state (module_path output : string) :
  exists st,
    value (for_each (Str.split "010" output) info_line
             (ParseState (initial_info module_path) NoSection)) = Ok st
    /\ parse_module_info module_path output = ret (info st).
Proof.
  destruct (info_lines_fields (Str.split "010" output)
              (ParseState (initial_info module_path) NoSection))
    as (st & Hrun & _).
  exists st. unfold parse_module_info. rewrite Hrun. now split.
Qed.

(** *** The rank *)









End DetailInvariants.


(** *** The description *)

Lemma info_line_description (all : list string) (st : parse_state)
    (line : string) (st' : parse_state) :
  In line all ->
  value (info_line st line) = Ok st' ->
  description_ok (map Str.strip all) (description (info st)) ->
  description_ok (map Str.strip all) (description (info st')).
Proof.
  intros Hin. unfold info_line.
  destruct (Str.startswith "Name:" (Str.strip line)) eqn:HName;
    [intros [= <-]; trivial|].
  destruct (Str.contains "Description:" (Str.strip line)) eqn:HDesc;
    [intros [= <-]; trivial|].
  destruct (in_description (current_section st)
            && negb (Str.is_empty (Str.strip line))
            && negb (Str.startswith "Module" (Str.strip line))) eqn:HCapture.
  { intros [= <-] _. right. simpl.
    apply andb_true_iff in HCapture as [_ HModule].
    apply negb_true_iff in HModule.
    split; [now apply in_map|]. now repeat split. }
  destruct (Str.contains "Rank:" _).
  { destruct (search_rank (Str.strip line)); simpl; intros [= <-]; trivial. }
  destruct (_ || _); [|intros [= <-]; trivial].
  destruct (Str.split ":" (Str.strip line)) as [|p0 [|p1 ps]]; simpl;
    intros [= <-]; trivial.
Qed.

(** X8: the description of a detail record is empty, or it is one of the
    trimmed lines of the detail text, a line that does not start with
    [Module] or [Name:] and does not contain [Description:]. *)
Theorem parse_module_info_description (module_path output : string) :
  exists i,
    parse_module_info module_path output = ret i
    /\ description_ok (detail_lines output) (description i).
Proof.
  destruct (parse_module_info_state module_path output) as (st & Hrun & Hret).
  exists (info st). split; [exact Hret|].
  apply (info_lines_invariant
           (fun st => description_ok (detail_lines output) (description (info st)))
           (Str.split "010" output)
           (info_line_description (Str.split "010" output))
           _ (incl_refl _) _ _ Hrun).
  now left.
Qed.

(** *** The platform entries *)

Section PlatformEntries.

Lemma has_char_lstrip (c : ascii) (s : string) :
  has_char c s = false -> has_char c (Str.lstrip s) = false.
Proof.
  induction s as [|x s IH]; [reflexivity|].
  simpl. intros H. destruct (Str.isspace x); [|exact H].
  apply orb_false_iff in H as [_ H]. now apply IH.
Qed.

Lemma has_char_rstrip (c : ascii) (s : string) :
  has_char c s = false -> has_char c (Str.rstrip s) = false.
Proof.
  induction s as [|x s IH]; [reflexivity|].
  simpl. intros H. apply orb_false_iff in H as [Hx H].
  destruct (Str.isspace x && Str.is_empty (Str.rstrip s)); [reflexivity|].
  simpl. now rewrite Hx, (IH H).
Qed.

Lemma has_char_strip (c : ascii) (s : string) :
  has_char c s = false -> has_char c (Str.strip s) = false.
Proof. intros H. unfold Str.strip. now apply has_char_rstrip, has_char_lstrip. Qed.

Lemma rstrip_idempotent (s : string) :
  Str.rstrip (Str.rstrip s) = Str.rstrip s.
Proof.
  induction s as [|x s IH]; [reflexivity|].
  simpl. destruct (Str.isspace x && Str.is_empty (Str.rstrip s)) eqn:H;
    [reflexivity|].
  simpl. now rewrite IH, H.
Qed.

Lemma lstrip_head (s : string) :
  Str.lstrip s = ""
  \/ exists x t, Str.lstrip s = String x t /\ Str.isspace x = false.
Proof.
  induction s as [|x s IH]; [now left|].
  simpl. destruct (Str.isspace x) eqn:Hx; [exact IH|].
  right. now exists x, s.
Qed.

Lemma strip_idempotent (s : string) : Str.strip (Str.strip s) = Str.strip s.
Proof.
  unfold Str.strip.
  destruct (lstrip_head s) as [->|(x & t & -> & Hx)]; [reflexivity|].
  simpl. rewrite Hx. simpl. rewrite Hx. simpl.
  now rewrite rstrip_idempotent, Hx.
Qed.

Lemma split_pieces (sep c : ascii) (s : string) :
  Forall (fun q => has_char sep q = false
                   /\ (has_char c s = false -> has_char c q = false))
         (Str.split sep s).
Proof.
  induction s as [|x s IH]; simpl.
  - repeat constructor.
  - destruct (Ascii.eqb x sep) eqn:Hx.
    + constructor; [now split|].
      eapply Forall_impl; [|exact IH].
      intros q [Hq Hc]. split; [assumption|].
      intros H. apply orb_false_iff in H as [_ H]. now apply Hc.
    + destruct (Str.split sep s) as [|h t] eqn:Hs;
        [now apply split_not_nil in Hs|].
      inversion IH as [|? ? [Hh Hch] Ht]; subst.
      constructor.
      { split; [simpl; now rewrite Hx|].
        simpl. intros H. apply orb_false_iff in H as [Hxc H].
        now rewrite Hxc, (Hch H). }
      eapply Forall_impl; [|exact Ht].
      intros q [Hq Hc]. split; [assumption|].
      intros H. apply orb_false_iff in H as [_ H]. now apply Hc.
Qed.

Lemma stripped_nonempty_entries (p1 : string) :
  has_char ":" p1 = false ->
  Forall entry_ok (stripped_nonempty (Str.split "," (Str.strip p1))).
Proof.
  intros Hcolon. unfold stripped_nonempty.
  pose proof (split_pieces "," ":" (Str.strip p1)) as Hpieces.
  induction Hpieces as [|q qs [Hcomma Hc] _ IH]; [constructor|].
  simpl. destruct (Str.is_empty (Str.strip q)) eqn:Hq; simpl; [exact IH|].
  constructor; [|exact IH].
  split; [intros E; rewrite E in Hq; discriminate|].
  split; [apply strip_idempotent|].
  split; [now apply has_char_strip|].
  apply has_char_strip, Hc. now apply has_char_strip.
Qed.

Lemma info_line_platform (st : parse_state) (line : string) (st' : parse_state) :
  value (info_line st line) = Ok st' ->
  Forall entry_ok (platform (info st)) ->
  Forall entry_ok (platform (info st')).
Proof.
  unfold info_line.
  destruct (Str.startswith "Name:" _); [intros [= <-]; trivial|].
  destruct (Str.contains "Description:" _); [intros [= <-]; trivial|].
  destruct (_ && _ && _); [intros [= <-]; trivial|].
  destruct (Str.contains "Rank:" _).
  { destruct (search_rank (Str.strip line)); simpl; intros [= <-]; trivial. }
  destruct (_ || _); [|intros [= <-]; trivial].
  pose proof (split_pieces ":" ":" (Str.strip line)) as Hparts.
  destruct (Str.split ":" (Str.strip line)) as [|p0 [|p1 ps]];
    [intros [= <-]; trivial ..|].
  inversion Hparts as [|? ? _ Htl]; subst.
  inversion Htl as [|? ? [Hp1 _] _]; subst.
  cbn. intros [= <-] Hst. cbn.
  apply Forall_app. split; [assumption|].
  now apply stripped_nonempty_entries.
Qed.

End PlatformEntries.

(** X9: every entry of the platform list of a detail record is a
    non-empty text without white space at either end, and it contains
    neither a [','] nor a [':']. *)
Theorem parse_module_info_platform (module_path output : string) :
  exists i,
    parse_module_info module_path output = ret i
    /\ Forall entry_ok (platform i).
Proof.
  destruct (parse_module_info_state module_path output) as (st & Hrun & Hret).
  exists (info st). split; [exact Hret|].
  apply (info_lines_invariant (fun st => Forall entry_ok (platform (info st)))
           (Str.split "010" output)
           (fun st line st' _ => info_line_platform st line st')
           _ (incl_refl _) _ _ Hrun).
  constructor.
Qed.

(** *** The name *)

(** X10: when several lines of a detail text start with [Name:], the
    last of them gives the name of the record: the line without its
    occurrences of [Name:], trimmed. *)
Theorem parse_module_info_last_name (module_path output : string)
    (before after : list string) (l : string) :
  detail_lines output = (before ++ l :: after)%list ->
  Str.startswith "Name:" l = true ->
  Forall (fun x => Str.startswith "Name:" x = false) after ->
  exists i,
    parse_module_info module_path output = ret i
    /\ name i = Str.strip (Str.replace "Name:" "" l).
Proof.
  intros Hlines HName Hafter.
  destruct (parse_module_info_state module_path output) as (st & Hrun & Hret).
  exists (info st). split; [exact Hret|].
  unfold detail_lines in Hlines.
  apply map_eq_app in Hlines as (L1 & L2' & HL & _ & H2).
  apply map_eq_cons in H2 as (x & L2 & -> & Hx & HL2).
  rewrite HL, value_for_each_app in Hrun.
  destruct (info_lines_fields L1 (ParseState (initial_info module_path) NoSection))
    as (st1 & Hrun1 & _).
  rewrite Hrun1 in Hrun. cbn [value ret for_each] in Hrun.
  rewrite value_bind in Hrun. unfold info_line at 1 in Hrun.
  rewrite Hx, HName in Hrun. cbn [value ret] in Hrun.
  destruct (info_lines_fields L2
              (ParseState
                 (set_name (info st1) (Str.strip (Str.replace "Name:" "" l)))
                 (current_section st1)))
    as (st3 & Hrun3 & _ & _ & _ & _ & Hname & _).
  rewrite Hrun3 in Hrun. injection Hrun as <-.
  rewrite Hname; [reflexivity|]. now rewrite HL2.
Qed.

Lemma parse_module_info_last_name_witness :
  exists i,
    parse_module_info "m"
      ("Name: First" ++ Str.nl ++ "  Name: Second  " ++ Str.nl ++ "Rank: Good")
    = ret i
    /\ name i = Str.strip (Str.replace "Name:" "" "Name: Second").
Proof.
  apply (parse_module_info_last_name "m"
           ("Name: First" ++ Str.nl ++ "  Name: Second  " ++ Str.nl ++ "Rank: Good")
           ["Name: First"] ["Rank: Good"] "Name: Second").
  - reflexivity.
  - reflexivity.
  - repeat constructor.
Defined.

(** ** [get_module_info] as a whole *)

(** X11: when the detail query is not interrupted, [get_module_info]
    returns a record for the path it was asked about; when the query fails
    (a timeout, a missing tool), the record is the path with every other
    field at its default. *)
Theorem get_module_info_robust (w : world) (module_type module_path : string) :
  (forall e, info_outcome w module_type module_path = Raised e ->
             is_Exception (exn_cls e) = true) ->
  exists i,
    value (get_module_info w module_type module_path) = Ok i
    /\ path i = module_path
    /\ targets i = [] /\ options i = [] /\ payloads i = []
    /\ (forall e, info_outcome w module_type module_path = Raised e ->
                  i = initial_info module_path).
Proof.
  intros Hexn. unfold get_module_info, info_outcome in *.
  rewrite value_bind, (run_msfconsole_command_value _ _ Hexn).
  set (output := match subprocess_run w _ 300 with
                 | Completed stdout => stdout
                 | Raised _ => ""
                 end).
  destruct (info_lines_fields (Str.split "010" output)
              (ParseState (initial_info module_path) NoSection))
    as (st & Hrun & Hp & Ht & Ho & Hy & _).
  exists (info st). unfold parse_module_info. rewrite Hrun.
  split; [reflexivity|]. do 4 (split; [assumption|]).
  intros e He. subst output. rewrite He in Hrun.
  cbn in Hrun. now injection Hrun as <-.
Qed.

Lemma get_module_info_robust_witness :
  exists i,
    value (get_module_info missing_tool_world "exploit" "windows/smb/x") = Ok i
    /\ path i = "windows/smb/x"
    /\ targets i = [] /\ options i = [] /\ payloads i = []
    /\ (forall e,
          info_outcome missing_tool_world "exploit" "windows/smb/x" = Raised e ->
          i = initial_info "windows/smb/x").
Proof.
  apply (get_module_info_robust missing_tool_world "exploit" "windows/smb/x").
  intros e He. injection He as <-. reflexivity.
Defined.

(** ** More on the report *)

Section ReportMore.

Lemma dict_get_map {V : Type} (f : string -> V) (types : list string) (t : string) :
  In t types -> dict_get (map (fun x => (x, f x)) types) t = Some (f t).
Proof.
  induction types as [|x types IH]; intros Hin; [destruct Hin|].
  simpl. destruct (String.eqb_spec x t) as [->|Hne]; [reflexivity|].
  destruct Hin as [Heq|Hin]; [contradiction | now apply IH].
Qed.

Lemma keys_map {V : Type} (f : string -> V) (types : list string) :
  keys (map (fun x => (x, f x)) types) = types.
Proof.
  unfold keys. rewrite map_map. simpl. apply map_id.
Qed.

Lemma enumerate_all_modules_report (w : world) :
  uninterrupted w ->
  exists r,
    value (enumerate_all_modules w) = Ok r
    /\ generated_at (report_metadata r) = Some (utcnow_isoformat w ++ "Z")
    /\ by_type (report_metadata r) = counted w module_types
    /\ report_modules r = categorized w module_types
    /\ total_modules (report_metadata r)
       = list_sum (values (counted w module_types)).
Proof.
  intros Hw. eexists. split; [now apply enumerate_all_modules_value|].
  split; [reflexivity|]. split; [reflexivity|]. split; [reflexivity|].
  cbn [stamp report_metadata total_modules].
  now rewrite record_filtered_total.
Qed.

Lemma policy_length (module_type : string) (modules : list string) :
  List.length (policy module_type modules) <= List.length modules.
Proof.
  unfold policy.
  destruct (str_in module_type ["exploit"; "payload"]).
  - rewrite filter_exploits_payloads_filter. apply filter_length_le.
  - destruct (String.eqb module_type "auxiliary"); [|lia].
    rewrite filter_auxiliary_firstn, length_firstn.
    pose proof (filter_length_le (matches TOP_SERVICES) modules). lia.
Qed.

Lemma policy_nil (module_type : string) : policy module_type [] = [].
Proof.
  unfold policy.
  destruct (str_in module_type ["exploit"; "payload"]); [reflexivity|].
  destruct (String.eqb module_type "auxiliary"); reflexivity.
Qed.

End ReportMore.

(** X12: in the report of a run that is not interrupted, the inventory
    and the counts have the seven module types as their keys, in the order
    of the run; the count of a type is the number of identifiers in the
    lists of its inventory; and the time stamp is the clock's text followed
    by [Z]. *)
Theorem report_consistent (w : world) :
  uninterrupted w ->
  exists r,
    value (enumerate_all_modules w) = Ok r
    /\ keys (report_modules r) = module_types
    /\ keys (by_type (report_metadata r)) = module_types
    /\ generated_at (report_metadata r) = Some (utcnow_isoformat w ++ "Z")
    /\ (forall t, In t module_types ->
          exists inventory,
            dict_get (report_modules r) t = Some inventory
            /\ dict_get (by_type (report_metadata r)) t
               = Some (total_listed inventory)).
Proof.
  intros Hw.
  destruct (enumerate_all_modules_report w Hw)
    as (r & Hr & Hstamp & Hby & Hmods & _).
  exists r. split; [exact Hr|].
  rewrite Hby, Hmods. unfold counted, categorized.
  split; [apply keys_map|]. split; [apply keys_map|].
  split; [exact Hstamp|].
  intros t Ht. eexists. split; [now apply dict_get_map|].
  rewrite (dict_get_map _ _ _ Ht). f_equal.
  symmetry. exact (organize_fold_total (filtered_modules w t) []).
Qed.

Lemma report_consistent_witness :
  exists r,
    value (enumerate_all_modules sample_world) = Ok r
    /\ keys (report_modules r) = module_types
    /\ keys (by_type (report_metadata r)) = module_types
    /\ generated_at (report_metadata r)
       = Some (utcnow_isoformat sample_world ++ "Z")
    /\ (forall t, In t module_types ->
          exists inventory,
            dict_get (report_modules r) t = Some inventory
            /\ dict_get (by_type (report_metadata r)) t
               = Some (total_listed inventory)).
Proof.
  apply (report_consistent sample_world).
  intros t e _ He. discriminate He.
Defined.

(** X13: a module type's part of the report depends on the outcome of its
    own query alone: two runs in which the query of a type has the same
    outcome give that type the same count and the same inventory, whatever
    the other queries do. *)
Theorem report_type_isolated (w1 w2 : world) (t : string) :
  uninterrupted w1 -> uninterrupted w2 ->
  In t module_types ->
  search_outcome w1 t = search_outcome w2 t ->
  exists r1 r2,
    value (enumerate_all_modules w1) = Ok r1
    /\ value (enumerate_all_modules w2) = Ok r2
    /\ dict_get (by_type (report_metadata r1)) t
       = dict_get (by_type (report_metadata r2)) t
    /\ dict_get (report_modules r1) t = dict_get (report_modules r2) t.
Proof.
  intros H1 H2 Ht Hsame.
  destruct (enumerate_all_modules_report w1 H1) as (r1 & Hr1 & _ & Hby1 & Hm1 & _).
  destruct (enumerate_all_modules_report w2 H2) as (r2 & Hr2 & _ & Hby2 & Hm2 & _).
  exists r1, r2. split; [exact Hr1|]. split; [exact Hr2|].
  assert (Hf : filtered_modules w1 t = filtered_modules w2 t).
  { unfold filtered_modules, listing_of. unfold search_outcome in Hsame.
    now rewrite Hsame. }
  rewrite Hby1, Hby2, Hm1, Hm2. unfold counted, categorized.
  rewrite !(dict_get_map _ _ _ Ht). now rewrite Hf.
Qed.

Lemma report_type_isolated_witness :
  exists r1 r2,
    value (enumerate_all_modules sample_world) = Ok r1
    /\ value (enumerate_all_modules
                (World (fun argv _ =>
                          if str_in "search type:nop; exit" argv
                          then Completed sample_listing
                          else Raised (Exn TimeoutExpired "timed out"))
                       "2024-06-01T12:00:00")) = Ok r2
    /\ dict_get (by_type (report_metadata r1)) "nop"
       = dict_get (by_type (report_metadata r2)) "nop"
    /\ dict_get (report_modules r1) "nop" = dict_get (report_modules r2) "nop".
Proof.
  apply (report_type_isolated sample_world
           (World (fun argv _ =>
                     if str_in "search type:nop; exit" argv
                     then Completed sample_listing
                     else Raised (Exn TimeoutExpired "timed out"))
                  "2024-06-01T12:00:00")
           "nop").
  - intros t e _ He. discriminate He.
  - intros t e _ He. cbv beta iota delta [subprocess_run] in He.
    match type of He with
    | (if ?c then _ else _) = _ => destruct c
    end; [discriminate|]. now injection He as <-.
  - vm_compute. tauto.
  - reflexivity.
Defined.

(** X14: when every query fails with an exception the command runner
    absorbs, the run still gives a report: every count and the total are
    zero and every inventory is empty. *)
Theorem report_of_failed_queries (w : world) :
  all_queries_fail w ->
  exists r,
    value (enumerate_all_modules w) = Ok r
    /\ total_modules (report_metadata r) = 0
    /\ by_type (report_metadata r) = map (fun t => (t, 0)) module_types
    /\ report_modules r = map (fun t => (t, [])) module_types.
Proof.
  intros Hfail.
  assert (Hw : uninterrupted w).
  { intros t e Ht He. destruct (Hfail t Ht) as (e' & He' & Hexn).
    unfold search_outcome in He'. rewrite He in He'. now injection He' as ->. }
  assert (Hnone : forall t, In t module_types -> filtered_modules w t = []).
  { intros t Ht. destruct (Hfail t Ht) as (e & He & _).
    unfold filtered_modules, listing_of. unfold search_outcome in He.
    rewrite He. apply policy_nil. }
  assert (Hby : counted w module_types = map (fun t => (t, 0)) module_types).
  { unfold counted. apply map_ext_in. intros t Ht. now rewrite (Hnone t Ht). }
  destruct (enumerate_all_modules_report w Hw)
    as (r & Hr & _ & Hcount & Hmods & Htotal).
  exists r. split; [exact Hr|].
  split; [rewrite Htotal, Hby; reflexivity|].
  split; [now rewrite Hcount|].
  rewrite Hmods. unfold categorized. apply map_ext_in.
  intros t Ht. now rewrite (Hnone t Ht).
Qed.

Lemma report_of_failed_queries_witness :
  exists r,
    value (enumerate_all_modules missing_tool_world) = Ok r
    /\ total_modules (report_metadata r) = 0
    /\ by_type (report_metadata r) = map (fun t => (t, 0)) module_types
    /\ report_modules r = map (fun t => (t, [])) module_types.
Proof.
  apply (report_of_failed_queries missing_tool_world).
  intros t _. eexists. split; reflexivity.
Defined.

(** X15: in a report, no count is larger than the number of identifiers
    the list parser found for the type, which is at most the number of lines
    of the listing, and the count of the auxiliary type is at most 50. *)
Theorem report_count_bounds (w : world) :
  uninterrupted w ->
  exists r,
    value (enumerate_all_modules w) = Ok r
    /\ (forall t, In t module_types ->
          exists n,
            dict_get (by_type (report_metadata r)) t = Some n
            /\ n <= List.length (parse_module_list (listing_of w t) t)
            /\ n <= List.length (Str.split "010" (listing_of w t)))
    /\ (exists n,
          dict_get (by_type (report_metadata r)) "auxiliary" = Some n
          /\ n <= 50).
Proof.
  intros Hw.
  destruct (enumerate_all_modules_report w Hw) as (r & Hr & _ & Hby & _).
  exists r. split; [exact Hr|]. rewrite Hby. unfold counted. split.
  - intros t Ht. eexists. split; [now apply dict_get_map|].
    unfold filtered_modules.
    pose proof (policy_length t (parse_module_list (listing_of w t) t)) as Hp.
    split; [exact Hp|].
    rewrite parse_module_list_flat_map in *.
    assert (Hlines : forall lines,
              List.length (flat_map (parse_module_line t []) lines)
              <= List.length lines).
    { induction lines as [|line lines IH]; simpl; [lia|].
      rewrite length_app.
      pose proof (parse_module_line_at_most_one t line). lia. }
    specialize (Hlines (Str.split "010" (listing_of w t))). lia.
  - eexists. split; [apply dict_get_map; vm_compute; tauto|].
    unfold filtered_modules, policy. simpl.
    rewrite filter_auxiliary_firstn, length_firstn. apply Nat.le_min_l.
Qed.

Lemma report_count_bounds_witness :
  exists r,
    value (enumerate_all_modules sample_world) = Ok r
    /\ (forall t, In t module_types ->
          exists n,
            dict_get (by_type (report_metadata r)) t = Some n
            /\ n <= List.length
                      (parse_module_list (listing_of sample_world t) t)
            /\ n <= List.length (Str.split "010" (listing_of sample_world t)))
    /\ (exists n,
          dict_get (by_type (report_metadata r)) "auxiliary" = Some n
          /\ n <= 50).
Proof.
  apply (report_count_bounds sample_world).
  intros t e _ He. discriminate He.
Defined.

(** ** Interrupts *)

Section Interrupts.

Variable w : world.

Lemma run_msfconsole_command_cases (command : string) :
  value (run_msfconsole_command w command)
  = match subprocess_run w (msfconsole_argv command) 300 with
    | Completed stdout => Ok stdout
    | Raised e => if is_Exception (exn_cls e) then Ok "" else Raise e
    end.
Proof.
  unfold run_msfconsole_command.
  destruct (subprocess_run w (msfconsole_argv command) 300) as [out|e];
    [reflexivity|].
  destruct e as [cls msg]. destruct cls; reflexivity.
Qed.

Lemma enumerate_type_cases (result : report) (t : string) :
  match search_outcome w t with
  | Completed _ => exists r, value (enumerate_type w result t) = Ok r
  | Raised e =>
      if is_Exception (exn_cls e)
      then exists r, value (enumerate_type w result t) = Ok r
      else value (enumerate_type w result t) = Raise e
  end.
Proof.
  unfold enumerate_type, search_outcome.
  rewrite value_bind. simpl value at 1. cbv iota beta.
  rewrite value_bind, run_msfconsole_command_cases.
  destruct (subprocess_run w _ 300) as [out|e].
  - rewrite value_bind. simpl value at 1. cbv iota beta.
    rewrite value_bind, apply_filtering_policy. eexists. reflexivity.
  - destruct (is_Exception (exn_cls e)); [|reflexivity].
    rewrite value_bind. simpl value at 1. cbv iota beta.
    rewrite value_bind, apply_filtering_policy. eexists. reflexivity.
Qed.

Lemma enumerate_types_interrupted (types : list string) :
  (exists t e, In t types /\ search_outcome w t = Raised e
               /\ is_Exception (exn_cls e) = false) ->
  forall result,
  exists e, value (for_each types (enumerate_type w) result) = Raise e
            /\ is_Exception (exn_cls e) = false.
Proof.
  induction types as [|t0 types IH]; intros (t & e & Hin & He & Hcls) result;
    [destruct Hin|].
  cbn [for_each]. rewrite value_bind.
  pose proof (enumerate_type_cases result t0) as Hcase.
  assert (Hrest : forall r,
            value (enumerate_type w result t0) = Ok r ->
            t0 <> t ->
            exists e0, value (for_each types (enumerate_type w) r) = Raise e0
                       /\ is_Exception (exn_cls e0) = false).
  { intros r _ Hne. apply IH. exists t, e.
    destruct Hin as [Heq|Hin]; [contradiction | now repeat split]. }
  destruct (search_outcome w t0) as [out|e0] eqn:H0.
  - destruct Hcase as [r Hr]. rewrite Hr. apply (Hrest r Hr).
    intros ->. rewrite H0 in He. discriminate.
  - destruct (is_Exception (exn_cls e0)) eqn:Hcls0.
    + destruct Hcase as [r Hr]. rewrite Hr. apply (Hrest r Hr).
      intros ->. rewrite H0 in He. injection He as ->. congruence.
    + rewrite Hcase. now exists e0.
Qed.

End Interrupts.

(** X16: an interrupt is not absorbed.  When a query of the run raises
    an exception that is not an [Exception] (a [KeyboardInterrupt], a
    [SystemExit]), the run gives no report and raises such an exception to
    its caller. *)
Theorem enumerate_all_modules_interrupted (w : world) :
  (exists t e, In t module_types /\ search_outcome w t = Raised e
               /\ is_Exception (exn_cls e) = false) ->
  exists e, value (enumerate_all_modules w) = Raise e
            /\ is_Exception (exn_cls e) = false.
Proof.
  intros H. unfold enumerate_all_modules.
  rewrite value_bind. simpl value at 1. cbv iota beta.
  rewrite value_bind.
  destruct (enumerate_types_interrupted w module_types H initial_report)
    as (e & -> & Hcls).
  now exists e.
Qed.

Lemma enumerate_all_modules_interrupted_witness :
  exists e,
    value (enumerate_all_modules
             (World (fun argv _ =>
                       if str_in "search type:post; exit" argv
                       then Raised (Exn KeyboardInterrupt "")
                       else Completed sample_listing)
                    "2024-06-01T12:00:00")) = Raise e
    /\ is_Exception (exn_cls e) = false.
Proof.
  apply (enumerate_all_modules_interrupted
           (World (fun argv _ =>
                     if str_in "search type:post; exit" argv
                     then Raised (Exn KeyboardInterrupt "")
                     else Completed sample_listing)
                  "2024-06-01T12:00:00")).
  exists "post", (Exn KeyboardInterrupt "").
  split; [vm_compute; tauto|]. split; reflexivity.
Defined.

(** ** [main] *)




(** With no console and a directory that takes the document, [main]
    returns 0; with no directory it returns 1. *)
Example main_exit_codes :
  value (main missing_tool_world writable) = Ok 0
  /\ value (main sample_world missing_directory) = Ok 1.
Proof. split; vm_compute; reflexivity. Qed.
